(** * metadata-explorer: the linked-data explorer of [_site/script.js]

    A shallow embedding of the script's value model, of [RDFConverter]
    (the Turtle writer), of the generic-data wrapper and of the
    [JSONLDExplorer] controller, followed by the properties of each. *)

From Stdlib Require Import List String Ascii Bool Arith ZArith Lia.
From Stdlib Require Import Numbers.DecimalString.
Import ListNotations.
Open Scope string_scope.

(** ** Text helpers *)

(** The two characters a string literal cannot hold directly. *)
Definition nl : string := String (ascii_of_nat 10) EmptyString.
Definition dq : string := String (ascii_of_nat 34) EmptyString.

(** [Array.prototype.join] on an array of strings. *)
Definition join (sep : string) (items : list string) : string :=
  String.concat sep items.

(** [hay.includes(needle)]. *)
Fixpoint includes (hay needle : string) : bool :=
  prefix needle hay ||
  match hay with
  | EmptyString => false
  | String _ rest => includes rest needle
  end.

(** [list.includes(k)] for an array literal of strings. *)
Definition includes_key (l : list string) (k : string) : bool :=
  existsb (String.eqb k) l.

(** [s.replace(/"/g, '\\"')]: a backslash in front of every double quote. *)
Fixpoint escape_quotes (s : string) : string :=
  match s with
  | EmptyString => EmptyString
  | String c rest =>
      if Ascii.eqb c (ascii_of_nat 34)
      then String (ascii_of_nat 92) (String c (escape_quotes rest))
      else String c (escape_quotes rest)
  end.

(** The test [/^https?:\/\//]. *)
Definition is_http_uri (s : string) : bool :=
  prefix "http://" s || prefix "https://" s.

(** ** Values

    The values the script handles are those of a parsed JSON tree, and
    [undefined]. A mapping is the list of its entries in the order
    [Object.entries] gives them; an object has no two entries with one
    key. Numbers are the integers, written in decimal the way JavaScript
    writes an integer below 10^21 in magnitude. *)

#[warnings="-register-all"]
Inductive value : Type :=
| VUndefined
| VNull
| VBool (b : bool)
| VNum (n : Z)
| VStr (s : string)
| VArr (items : list value)
| VObj (entries : list (string * value)).

Definition entries : Type := list (string * value).

Definition keys (o : entries) : list string := map fst o.

Fixpoint distinct (l : list string) : bool :=
  match l with
  | [] => true
  | k :: rest => negb (existsb (String.eqb k) rest) && distinct rest
  end.

(** The entry list of an object: its keys are pairwise distinct. *)
Definition wf_object (o : entries) : Prop := distinct (keys o) = true.

Definition Number_toString (n : Z) : string :=
  NilZero.string_of_int (Z.to_int n).

Definition index_key (i : nat) : string :=
  NilZero.string_of_uint (Nat.to_uint i).

(** JavaScript truthiness: [!!v]. *)
Definition truthy (v : value) : bool :=
  match v with
  | VUndefined | VNull => false
  | VBool b => b
  | VNum n => negb (Z.eqb n 0)
  | VStr s => negb (String.eqb s EmptyString)
  | VArr _ | VObj _ => true
  end.

(** [a || b]. *)
Definition js_or (a b : value) : value := if truthy a then a else b.

(** [String(v)], which is also what a template literal applies. *)
Fixpoint ToString (v : value) : string :=
  match v with
  | VUndefined => "undefined"
  | VNull => "null"
  | VBool true => "true"
  | VBool false => "false"
  | VNum n => Number_toString n
  | VStr s => s
  | VArr items =>
      join ","
        (map (fun e => match e with
                       | VUndefined | VNull => EmptyString
                       | _ => ToString e
                       end) items)
  | VObj _ => "[object Object]"
  end.

(** Own-property lookup in an entry list. *)
Fixpoint lookup (k : string) (o : entries) : option value :=
  match o with
  | [] => None
  | (k', v) :: rest => if String.eqb k k' then Some v else lookup k rest
  end.

(** [o[k]] on a mapping: [undefined] when the key is missing. *)
Definition get (o : entries) (k : string) : value :=
  match lookup k o with
  | Some v => v
  | None => VUndefined
  end.

(** [v?.[k]] for a key that is no built-in property name (the script
    only asks for the two marker keys): [undefined] on everything but a
    mapping that has the key. *)
Definition get_opt (v : value) (k : string) : value :=
  match v with
  | VObj o => get o k
  | _ => VUndefined
  end.

(** [utils.isObject]: [typeof val === 'object' && val !== null], which
    holds of arrays as well as of mappings. *)
Definition isObject (v : value) : bool :=
  match v with
  | VArr _ | VObj _ => true
  | _ => false
  end.

(** [Array.isArray]. *)
Definition Array_isArray (v : value) : bool :=
  match v with
  | VArr _ => true
  | _ => false
  end.

Definition isMapping (v : value) : bool :=
  match v with
  | VObj _ => true
  | _ => false
  end.

(** [utils.isJSONLD]: the value of [obj?.['@context'] || obj?.['@type']]. *)
Definition isJSONLD (obj : value) : value :=
  js_or (get_opt obj "@context") (get_opt obj "@type").

(** [Object.entries(v)]; [None] is the TypeError on [null] and
    [undefined]. A string yields its characters under their indices. *)
Fixpoint indexed {A : Type} (i : nat) (l : list A) : list (string * A) :=
  match l with
  | [] => []
  | x :: rest => (index_key i, x) :: indexed (S i) rest
  end.

Fixpoint chars (s : string) : list value :=
  match s with
  | EmptyString => []
  | String c rest => VStr (String c EmptyString) :: chars rest
  end.

Definition Object_entries (v : value) : option entries :=
  match v with
  | VUndefined | VNull => None
  | VBool _ | VNum _ => Some []
  | VStr s => Some (indexed 0 (chars s))
  | VArr items => Some (indexed 0 items)
  | VObj o => Some o
  end.

(** [l.filter(keep).map(f)], written so that a structural recursion may
    pass through it; [select_map_filter] below gives the equation. *)
Definition select_map {A B : Type} (keep : A -> bool) (f : A -> B)
    (l : list A) : list B :=
  List.concat (map (fun x => if keep x then [f x] else []) l).

(** ** The Turtle writer: [RDFConverter] *)

(** What [formatValue] returns: a string, or the number or boolean it
    was given (line 89 returns the value itself). *)
Inductive formatted : Type :=
| FText (s : string)
| FNum (n : Z)
| FBool (b : bool).

(** [String(r)], applied by the template literals and by [join]. *)
Definition text_of (r : formatted) : string :=
  match r with
  | FText s => s
  | FNum n => Number_toString n
  | FBool true => "true"
  | FBool false => "false"
  end.

(** [key.includes(':') ? key : `schema:${key}`]. *)
Definition predicate (key : string) : string :=
  if includes key ":" then key else "schema:" ++ key.

Module RDFConverter.

Section Converter.

(** The two host functions the writer calls. [utils.decodeHtmlEntities]
    goes through a DOM textarea and [JSON.stringify] is the built-in;
    the writer's layout does not depend on what they return. *)
Variable decodeHtmlEntities : string -> string.
Variable JSON_stringify : value -> string.

Fixpoint formatValue (v : value) (indent : string) {struct v} : formatted :=
  match v with
  | VStr s =>
      let decoded := decodeHtmlEntities s in
      FText (if is_http_uri decoded
             then "<" ++ decoded ++ ">"
             else dq ++ escape_quotes decoded ++ dq)
  | VNum n => FNum n
  | VBool b => FBool b
  | VArr items =>
      match items with
      | [] => FText "()"
      | _ =>
          let its := map (fun e => text_of (formatValue e (indent ++ "  "))) items in
          FText (if forallb (fun e => negb (isObject e)) items
                 then "(" ++ nl ++ indent ++ "  " ++ join " " its ++ nl ++ indent ++ ")"
                 else join (" ," ++ nl ++ indent) its)
      end
  | VObj o =>
      if truthy (get o "@type") then
        let props :=
          select_map (fun '(k, _) => negb (String.eqb k "@type"))
            (fun '(k, e) => indent ++ "  " ++ predicate k ++ " "
                            ++ text_of (formatValue e (indent ++ "  ")))
            o in
        FText ("[" ++ nl ++ indent ++ "  a schema:" ++ ToString (get o "@type")
               ++ " ;" ++ nl ++ join (" ;" ++ nl) props ++ nl ++ indent ++ "]")
      else
        FText (dq ++ escape_quotes (decodeHtmlEntities (JSON_stringify v)) ++ dq)
  | VUndefined | VNull => FText (dq ++ dq)
  end.

(** [RDFConverter.prefixes], in the order of the class body. *)
Definition prefixes : list (string * string) :=
  [ ("schema", "https://schema.org/");
    ("csvw", "https://www.w3.org/ns/csvw#");
    ("foaf", "http://xmlns.com/foaf/0.1/");
    ("dcat", "http://www.w3.org/ns/dcat#");
    ("sh", "http://www.w3.org/ns/shacl#");
    ("rdf", "http://www.w3.org/1999/02/22-rdf-syntax-ns#");
    ("rdfs", "http://www.w3.org/2000/01/rdf-schema#") ].

(** The text [toTurtle] starts from: the declarations and a blank line. *)
Definition prefix_declarations : string :=
  join nl (map (fun '(prefix, uri) => "@prefix " ++ prefix ++ ": <" ++ uri ++ "> .")
               prefixes)
  ++ nl ++ nl.

(** The array [props] of [toTurtle]. *)
Definition property_lines (o : entries) : list string :=
  map (fun '(key, v) => "  " ++ predicate key ++ " " ++ text_of (formatValue v "  "))
      (filter (fun '(key, _) => negb (includes_key ["@context"; "@type"] key)) o).

(** [RDFConverter.toTurtle]. [None] is the TypeError of [data['@type']]
    on [null] and [undefined]. *)
Definition toTurtle (data : value) : option string :=
  match Object_entries data with
  | None => None
  | Some o =>
      let turtle := prefix_declarations in
      let type := js_or (get_opt data "@type") (VStr "Resource") in
      let props := property_lines o in
      Some (turtle ++ "<> a schema:" ++ ToString type ++ " ;" ++ nl
                   ++ join (" ;" ++ nl) props ++ " ." ++ nl)
  end.

End Converter.

End RDFConverter.
Import RDFConverter.

(** ** Objects under construction

    An object lists its array-index keys first, in ascending order, and
    then its other keys in the order they were created. *)

(** The index a key denotes when it is the canonical decimal form of an
    integer below 2^32 - 1. *)
Definition array_index (k : string) : option N :=
  match NilZero.uint_of_string k with
  | Some u =>
      let n := N.of_uint u in
      if String.eqb (NilZero.string_of_uint (N.to_uint n)) k && (n <? 4294967295)%N
      then Some n
      else None
  | None => None
  end.

Fixpoint replace_value (k : string) (v : value) (o : entries) : entries :=
  match o with
  | [] => []
  | (k', v') :: rest =>
      if String.eqb k k' then (k', v) :: rest
      else (k', v') :: replace_value k v rest
  end.

Fixpoint insert_index (n : N) (k : string) (v : value) (o : entries) : entries :=
  match o with
  | [] => [(k, v)]
  | (k', v') :: rest =>
      match array_index k' with
      | Some m => if (n <? m)%N then (k, v) :: o
                  else (k', v') :: insert_index n k v rest
      | None => (k, v) :: o
      end
  end.

(** Defining the own property [k] of [o] with value [v]. *)
Definition define_property (o : entries) (k : string) (v : value) : entries :=
  match lookup k o with
  | Some _ => replace_value k v o
  | None =>
      match array_index k with
      | Some n => insert_index n k v o
      | None => (o ++ [(k, v)])%list
      end
  end.

(** Defining the properties [props] one after the other on [o]: an
    object literal, a spread, and [Object.fromEntries] on the empty
    object. *)
Definition define_all (o : entries) (props : entries) : entries :=
  fold_left (fun acc '(k, v) => define_property acc k v) props o.

Definition Object_fromEntries (props : entries) : entries := define_all [] props.

(** ** The controller: [JSONLDExplorer] *)

Inductive format : Type := Table | Turtle | Rdfxml | Ntriples | Nquads.

Definition format_eqb (f g : format) : bool :=
  match f, g with
  | Table, Table | Turtle, Turtle | Rdfxml, Rdfxml
  | Ntriples, Ntriples | Nquads, Nquads => true
  | _, _ => false
  end.

Definition all_formats : list format := [Table; Turtle; Rdfxml; Ntriples; Nquads].

(** A map keyed by format, and the assignment [m[f] = x]. *)
Definition assign {A : Type} (m : format -> A) (f : format) (x : A) : format -> A :=
  fun g => if format_eqb g f then x else m g.

Inductive display : Type := DisplayNone | DisplayBlock | DisplayInlineBlock.

(** The part of the page the script writes. A field holds what the
    script assigned last, and [None] while it has assigned nothing.
    [view_text] is the [innerHTML] or [textContent] of the table view and
    the [textContent] of the [pre] of every other view. *)
Record page : Type := {
  view_display : format -> option display;
  view_text : format -> option string;
  load_disabled : option bool;
  load_label : option string;
  download_display : option display;
  toggle_disabled : format -> option bool
}.

(** What a suspended [await] waits for: a promise that is fulfilled
    already, or the promise of [window.jsonld.toRDF]. *)
Inductive awaited : Type :=
| Fulfilled (content : string)
| OnJsonld.

(** The suspended calls: [showView] at line 297, [handleAsyncNQuads] at
    line 336, [loadData] at lines 221 and 222. *)
Inductive task : Type :=
| InShowView (f : format) (w : awaited)
| InHandleAsyncNQuads (w : awaited)
| InLoadData.

(** The converter invocations, kept as a log. *)
Inductive call : Type :=
| CallRdflib (mime : option string) (turtle : string)
| CallJsonld (data : value).

Record explorer : Type := {
  data : value;
  currentFormat : format;
  cache : format -> option string;
  elements : page;
  suspended : list task;
  calls : list call
}.

(** How an awaited promise settles. *)
Inductive settlement : Type :=
| Resumed
| JsonldResolved (nquads : string)
| JsonldRejected (err : string)
| FetchRejected
| JsonRejected
| Fetched (data : value).

Inductive event : Type :=
| CallShowView (f : format)
| CallLoadData
| Settle (i : nat) (r : settlement).

Definition with_data (s : explorer) (d : value) : explorer :=
  {| data := d; currentFormat := currentFormat s; cache := cache s;
     elements := elements s; suspended := suspended s; calls := calls s |}.

Definition with_currentFormat (s : explorer) (f : format) : explorer :=
  {| data := data s; currentFormat := f; cache := cache s;
     elements := elements s; suspended := suspended s; calls := calls s |}.

Definition with_cache (s : explorer) (c : format -> option string) : explorer :=
  {| data := data s; currentFormat := currentFormat s; cache := c;
     elements := elements s; suspended := suspended s; calls := calls s |}.

Definition with_elements (s : explorer) (p : page) : explorer :=
  {| data := data s; currentFormat := currentFormat s; cache := cache s;
     elements := p; suspended := suspended s; calls := calls s |}.

Definition with_suspended (s : explorer) (l : list task) : explorer :=
  {| data := data s; currentFormat := currentFormat s; cache := cache s;
     elements := elements s; suspended := l; calls := calls s |}.

Definition with_calls (s : explorer) (l : list call) : explorer :=
  {| data := data s; currentFormat := currentFormat s; cache := cache s;
     elements := elements s; suspended := suspended s; calls := l |}.

Definition set_view_display (p : page) (d : format -> option display) : page :=
  {| view_display := d; view_text := view_text p;
     load_disabled := load_disabled p; load_label := load_label p;
     download_display := download_display p; toggle_disabled := toggle_disabled p |}.

Definition set_view_text (p : page) (f : format) (t : string) : page :=
  {| view_display := view_display p; view_text := assign (view_text p) f (Some t);
     load_disabled := load_disabled p; load_label := load_label p;
     download_display := download_display p; toggle_disabled := toggle_disabled p |}.

Definition set_load (p : page) (disabled : bool) (label : string) : page :=
  {| view_display := view_display p; view_text := view_text p;
     load_disabled := Some disabled; load_label := Some label;
     download_display := download_display p; toggle_disabled := toggle_disabled p |}.

Definition set_download_display (p : page) (d : display) : page :=
  {| view_display := view_display p; view_text := view_text p;
     load_disabled := load_disabled p; load_label := load_label p;
     download_display := Some d; toggle_disabled := toggle_disabled p |}.

Definition set_toggle_disabled (p : page) (t : format -> option bool) : page :=
  {| view_display := view_display p; view_text := view_text p;
     load_disabled := load_disabled p; load_label := load_label p;
     download_display := download_display p; toggle_disabled := t |}.

(** [Object.values(views).forEach(view => view.style.display = 'none')]. *)
Definition hide_all_views (p : page) : page :=
  set_view_display p (fun _ => Some DisplayNone).

Definition show_view (p : page) (f : format) : page :=
  set_view_display p (assign (view_display p) f (Some DisplayBlock)).

Definition failure_message : string :=
  "Failed to load data! Check the URL and try again.".

(** The state the constructor leaves, on a page nothing was written to. *)
Definition blank_page : page :=
  {| view_display := fun _ => None; view_text := fun _ => None;
     load_disabled := None; load_label := None;
     download_display := None; toggle_disabled := fun _ => None |}.

Definition constructed : explorer :=
  {| data := VNull; currentFormat := Table; cache := fun _ => None;
     elements := blank_page; suspended := []; calls := [] |}.

Definition remove_nth {A : Type} (i : nat) (l : list A) : list A :=
  (firstn i l ++ skipn (S i) l)%list.

(** [!content] for a cache entry: missing, or the empty string. *)
Definition falsy_text (c : option string) : bool :=
  match c with
  | None => true
  | Some t => String.eqb t EmptyString
  end.

Module JSONLDExplorer.

Definition generic_context : value := VObj [("schema", VStr "https://schema.org/")].

(** [JSONLDExplorer.wrapGenericData]; [None] is the TypeError of
    [Object.entries] on [null]. *)
Definition wrapGenericData (data : value) : option value :=
  match Object_entries data with
  | None => None
  | Some es =>
      let copied :=
        Object_fromEntries
          (filter (fun '(k, _) => negb (includes_key ["@context"; "@type"] k)) es) in
      Some (VObj (define_all
                    (define_all [] [("@context", generic_context);
                                    ("@type", VStr "Resource")])
                    copied))
  end.

(** The right-hand side of line 224:
    [utils.isJSONLD(data) ? data : this.wrapGenericData(data)]. *)
Definition normalize (data : value) : option value :=
  if truthy (isJSONLD data) then Some data else wrapGenericData data.

Section Controller.

Variable decodeHtmlEntities : string -> string.
Variable JSON_stringify : value -> string.

(** [DataRenderer.renderValue]: the HTML of one table cell. The table is
    only written to the page; nothing the explorer does reads it back. *)
Variable renderValue : value -> string.

(** [window.$rdf], [None] when RDFLib is not loaded: parsing the Turtle
    text and serializing it to a MIME type gives a text, or throws an
    error whose string form is given. *)
Variable rdflib : option (string -> option string -> string + string).

(** Whether [window.jsonld] is there. *)
Variable jsonld_loaded : bool.

Definition mimeTypes (f : format) : option string :=
  match f with
  | Rdfxml => Some "application/rdf+xml"
  | Ntriples => Some "application/n-triples"
  | _ => None
  end.

(** [RDFConverter.toRDF]. *)
Definition toRDF (f : format) (turtle : string) : string * list call :=
  match rdflib with
  | None => ("RDFLib not loaded!", [])
  | Some convert =>
      (match convert turtle (mimeTypes f) with
       | inl text => text
       | inr e => "Error converting: " ++ e
       end,
       [CallRdflib (mimeTypes f) turtle])
  end.

(** [RDFConverter.toNQuads] up to its [await]. *)
Definition toNQuads (d : value) : awaited * list call :=
  if negb jsonld_loaded then (Fulfilled "jsonld.js not loaded!", [])
  else (OnJsonld, [CallJsonld d]).

(** The value an [await] on [toNQuads] resumes with. *)
Definition settled (w : awaited) (r : settlement) : option string :=
  match w, r with
  | Fulfilled c, Resumed => Some c
  | OnJsonld, JsonldResolved t => Some t
  | OnJsonld, JsonldRejected e => Some ("Error converting: " ++ e)
  | _, _ => None
  end.

(** [generateContent]; [None] when [toTurtle] throws. *)
Definition generateContent (s : explorer) (f : format)
    : option (awaited * list call) :=
  match toTurtle decodeHtmlEntities JSON_stringify (data s) with
  | None => None
  | Some turtle =>
      Some match f with
           | Turtle => (Fulfilled turtle, [])
           | Rdfxml => let '(t, c) := toRDF Rdfxml turtle in (Fulfilled t, c)
           | Ntriples => let '(t, c) := toRDF Ntriples turtle in (Fulfilled t, c)
           | Nquads => toNQuads (data s)
           | Table => (Fulfilled EmptyString, [])
           end
  end.

(** [handleAsyncNQuads] up to its [await], and from it. *)
Definition handleAsyncNQuads (s : explorer) : explorer :=
  let s1 := with_elements s (set_view_text (elements s) Nquads "Loading...") in
  let '(w, c) := toNQuads (data s1) in
  with_calls (with_suspended s1 (suspended s1 ++ [InHandleAsyncNQuads w]))
             (calls s1 ++ c).

Definition handleAsyncNQuads_resume (s : explorer) (nquads : string) : explorer :=
  let s1 := with_cache s (assign (cache s) Nquads (Some nquads)) in
  if format_eqb (currentFormat s1) Nquads
  then with_elements s1 (set_view_text (elements s1) Nquads nquads)
  else s1.

(** [renderContent] for the view of [f]. *)
Definition renderContent (s : explorer) (f : format) (content : string) : explorer :=
  if format_eqb f Nquads
     && match cache s Nquads with
        | Some c => String.eqb content c
        | None => false
        end
     && includes content "Loading"
  then handleAsyncNQuads s
  else with_elements s (set_view_text (elements s) f content).

(** Lines 301-302, and lines 298-302 after the [await]. *)
Definition render_and_show (s : explorer) (f : format) (content : string) : explorer :=
  let s1 := renderContent s f content in
  with_elements s1 (show_view (elements s1) f).

Definition showView_resume (s : explorer) (f : format) (content : string) : explorer :=
  render_and_show (with_cache s (assign (cache s) f (Some content))) f content.

(** [showView] up to its [await], or to its end when it meets none. *)
Definition showView (s : explorer) (f : format) : explorer :=
  if negb (truthy (data s)) then s
  else
    let s1 := with_currentFormat (with_elements s (hide_all_views (elements s))) f in
    let s2 := with_elements s1
                (set_download_display (elements s1)
                   (if format_eqb f Table then DisplayNone else DisplayInlineBlock)) in
    if format_eqb f Table then with_elements s2 (show_view (elements s2) Table)
    else if falsy_text (cache s2 f) then
      match generateContent s2 f with
      | None => s2
      | Some (w, c) =>
          with_calls (with_suspended s2 (suspended s2 ++ [InShowView f w]))
                     (calls s2 ++ c)
      end
    else
      match cache s2 f with
      | Some content => render_and_show s2 f content
      | None => s2
      end.

Definition setLoadingState (p : page) (isLoading : bool) : page :=
  let p1 := set_load p isLoading (if isLoading then "Loading..." else "Load Data") in
  let p2 := set_download_display p1 DisplayNone in
  if isLoading then hide_all_views (set_view_text p2 Table "Loading...") else p2.

Definition updateButtonStates (p : page) : page :=
  let no_rdf := match rdflib with None => true | Some _ => false end in
  set_toggle_disabled p
    (assign (assign (assign (assign (toggle_disabled p)
       Turtle (Some false))
       Rdfxml (Some no_rdf))
       Ntriples (Some no_rdf))
       Nquads (Some (negb jsonld_loaded))).

(** [renderTable]; [None] is the TypeError of [Object.entries]. *)
Definition renderTable (s : explorer) (d : value) : option explorer :=
  match Object_entries d with
  | None => None
  | Some es =>
      let rows :=
        join EmptyString
          (map (fun '(key, val) =>
                  "<tr><td>" ++ key ++ "</td><td>" ++ renderValue val ++ "</td></tr>")
               es) in
      let html := "<table><thead><tr><th>Key</th><th>Value</th></tr></thead><tbody>"
                  ++ rows ++ "</tbody></table>" in
      Some (showView (with_elements s (set_view_text (elements s) Table html)) Table)
  end.

(** [loadData] up to its [await]s, its [catch] block, and the rest of
    its [try] block once the tree is there. *)
Definition loadData (s : explorer) : explorer :=
  let s1 := with_elements s (setLoadingState (elements s) true) in
  with_suspended s1 (suspended s1 ++ [InLoadData]).

Definition loadData_catch (s : explorer) : explorer :=
  with_elements s
    (setLoadingState (set_view_text (elements s) Table failure_message) false).

Definition loadData_resume (s : explorer) (d : value) : explorer :=
  match normalize d with
  | None => loadData_catch s
  | Some doc =>
      let s1 := with_cache (with_data s doc) (fun _ => None) in
      match renderTable s1 d with
      | None => loadData_catch s1
      | Some s2 =>
          with_elements s2 (setLoadingState (updateButtonStates (elements s2)) false)
      end
  end.

(** One turn of the event loop. A settlement that does not fit the
    task it names changes nothing. *)
Definition step (s : explorer) (e : event) : explorer :=
  match e with
  | CallShowView f => showView s f
  | CallLoadData => loadData s
  | Settle i r =>
      match nth_error (suspended s) i with
      | None => s
      | Some t =>
          let s' := with_suspended s (remove_nth i (suspended s)) in
          match t with
          | InShowView f w =>
              match settled w r with
              | Some content => showView_resume s' f content
              | None => s
              end
          | InHandleAsyncNQuads w =>
              match settled w r with
              | Some nquads => handleAsyncNQuads_resume s' nquads
              | None => s
              end
          | InLoadData =>
              match r with
              | Fetched d => loadData_resume s' d
              | FetchRejected | JsonRejected => loadData_catch s'
              | _ => s
              end
          end
      end
  end.

Definition run (s : explorer) (es : list event) : explorer := fold_left step es s.

Definition reachable (s : explorer) : Prop := exists es, run constructed es = s.

End Controller.

End JSONLDExplorer.
Import JSONLDExplorer.

(** ** The layouts the specification words describe

    Kept apart from the writer above, to be compared with it. *)

(** Every line closed by [ ;] but the last, which is closed by [ .]. *)
Fixpoint terminated (lines : list string) : string :=
  match lines with
  | [] => EmptyString
  | [l] => l ++ " ." ++ nl
  | l :: rest => l ++ " ;" ++ nl ++ terminated rest
  end.

(** The type name read as: the [@type] entry when the key is there. *)
Definition type_if_present (o : entries) : string :=
  match lookup "@type" o with
  | Some t => ToString t
  | None => "Resource"
  end.

(** The subject block as worded: the subject line, then the lines. *)
Definition worded_subject_block (o : entries) (lines : list string) : string :=
  "<> a schema:" ++ type_if_present o ++ " ;" ++ nl ++ terminated lines.

(** A collection with every element on an indented line of its own. *)
Definition one_per_line (indent : string) (its : list string) : string :=
  "(" ++ nl ++ String.concat EmptyString (map (fun it => indent ++ "  " ++ it ++ nl) its)
      ++ indent ++ ")".

(** The anonymous node of the specification's example, and the document
    it is taken from. *)
Definition bob : value := VObj [("@type", VStr "Person"); ("name", VStr "Bob")].

Definition person_with_friends : value :=
  VObj [("@type", VStr "Person"); ("friends", VArr [bob])].

Definition worded_bob_node : string :=
  "[" ++ nl ++ "  a schema:Person ;" ++ nl ++ "  schema:name " ++ dq ++ "Bob" ++ dq
      ++ nl ++ "]".

Definition nested_bob_node : string :=
  "[" ++ nl ++ "      a schema:Person ;" ++ nl ++ "      schema:name " ++ dq ++ "Bob" ++ dq
      ++ nl ++ "    ]".

(** Documents for the subject block: one whose [@type] is the empty
    string, one with no property besides its type. *)
Definition untyped_position : entries :=
  [("@context", VStr "https://schema.org/"); ("@type", VStr EmptyString);
   ("position", VNum 1)].

Definition bare_person : entries := [("@type", VStr "Person")].

(** A plain tree, with neither marker key. *)
Definition alice : entries :=
  [("name", VStr "Alice"); ("homepage", VStr "https://alice.example")].

(** A host to evaluate examples on: their texts hold no character
    reference, so the decoder returns them as they are, and none of them
    reaches [JSON.stringify]. *)
Definition sample_decode : string -> string := fun s => s.
Definition sample_stringify : value -> string := fun _ => "{}".
Definition sample_renderValue : value -> string := ToString.

(** An N-Quads text for the converter to resolve with. *)
Definition sample_nquads : string :=
  "_:b0 <http://www.w3.org/1999/02/22-rdf-syntax-ns#type> <https://schema.org/Person> .".

(** Schedules from the constructed explorer. Each loads the example
    document first. In the first, N-Quads is requested, Turtle is
    requested while the converter runs, the Turtle request completes, and
    the converter resolves last. *)
Definition stale_nquads_schedule : list event :=
  [CallLoadData; Settle 0 (Fetched person_with_friends);
   CallShowView Nquads; CallShowView Turtle;
   Settle 1 Resumed; Settle 0 (JsonldResolved sample_nquads)].

Definition loaded_schedule : list event :=
  [CallLoadData; Settle 0 (Fetched person_with_friends)].

Definition first_nquads_schedule : list event :=
  (loaded_schedule ++ [CallShowView Nquads])%list.

Definition repeated_nquads_schedule : list event :=
  (first_nquads_schedule ++ [CallShowView Nquads])%list.

Definition empty_nquads_schedule : list event :=
  [CallLoadData; Settle 0 (Fetched person_with_friends);
   CallShowView Nquads; Settle 0 (JsonldResolved EmptyString)].

(** What every state of the explorer satisfies: the cache has no entry
    for the table, no suspended [showView] is one for the table, and
    while no document is there the cache is empty and only loads are
    suspended. *)
Definition derived_task (t : task) : Prop :=
  match t with
  | InShowView Table _ => False
  | _ => True
  end.

Definition coherent (s : explorer) : Prop :=
  cache s Table = None
  /\ Forall derived_task (suspended s)
  /\ (truthy (data s) = true
      \/ ((forall f, cache s f = None)
          /\ Forall (fun t => t = InLoadData) (suspended s))).

(** ** Own-property order

    The order [Object.entries] gives the entries of any object in:
    array-index keys first, ascending, then the other keys. *)

Definition is_index (k : string) : bool :=
  match array_index k with
  | Some _ => true
  | None => false
  end.

Definition above (lo : option N) (n : N) : bool :=
  match lo with
  | None => true
  | Some m => (m <? n)%N
  end.

(** Entries under array-index keys, strictly ascending from [lo]. *)
Fixpoint ascending_from (lo : option N) (o : entries) : bool :=
  match o with
  | [] => true
  | (k, _) :: rest =>
      match array_index k with
      | Some n => above lo n && ascending_from (Some n) rest
      | None => false
      end
  end.

(** Entries none of which is under an array-index key. *)
Definition all_named (o : entries) : bool :=
  forallb (fun '(k, _) => negb (is_index k)) o.

Fixpoint own_ordered_from (lo : option N) (o : entries) : bool :=
  match o with
  | [] => true
  | (k, _) :: rest =>
      match array_index k with
      | Some n => above lo n && own_ordered_from (Some n) rest
      | None => all_named rest
      end
  end.

(** The entry list of an object as [Object.entries] returns it. *)
Definition own_ordered (o : entries) : Prop :=
  distinct (keys o) = true /\ own_ordered_from None o = true.

(** The two marker entries of [wrapGenericData], and the test of its
    filter. *)
Definition generic_markers : entries :=
  [("@context", generic_context); ("@type", VStr "Resource")].

Definition non_marker (e : string * value) : bool :=
  let '(k, _) := e in negb (includes_key ["@context"; "@type"] k).

(** A tree with an index key, a marker that is not truthy, and names. *)
Definition seventh : entries :=
  [("7", VNum 1); ("name", VStr "Alice"); ("@type", VStr EmptyString);
   ("homepage", VStr "https://alice.example")].

(** ** Export

    [JSONLDExplorer.download]: the file it offers, as its name and its
    content ([None] when it returns early). It leaves the explorer as it
    is. *)
Definition extensions (f : format) : option string :=
  match f with
  | Turtle => Some "ttl"
  | Rdfxml => Some "rdf"
  | Ntriples => Some "nt"
  | Nquads => Some "nq"
  | Table => None
  end.

Definition download (s : explorer) : option (string * string) :=
  let data := cache s (currentFormat s) in
  let ext := extensions (currentFormat s) in
  match data with
  | None => None
  | Some text =>
      if String.eqb text EmptyString || prefix "Error" text || includes text "not loaded"
      then None
      else Some ("export." ++ match ext with
                              | Some e => e
                              | None => "undefined"
                              end,
                 text)
  end.

(** Events other than the arrival of a fetched tree. *)
Definition brings_no_tree (e : event) : bool :=
  match e with
  | Settle _ (Fetched _) => false
  | _ => true
  end.

(** A fetched tree, an array, for the examples. *)
Definition fetched_list : value := VArr [VNum 5; VNum 6].

(** The explorer before any document: no document, an empty cache, no
    converter call, and only loads suspended. *)
Definition idle (s : explorer) : Prop :=
  data s = VNull
  /\ (forall f, cache s f = None)
  /\ calls s = []
  /\ Forall (fun t => t = InLoadData) (suspended s).

(** What a converter call is made on: the document [doc], or its Turtle
    text, and a library that is loaded. *)
Definition call_for (turtle_of : value -> option string)
    (rdflib_loaded jsonld_loaded : bool) (doc : value) (c : call) : Prop :=
  match c with
  | CallJsonld d => jsonld_loaded = true /\ d = doc
  | CallRdflib mime turtle =>
      rdflib_loaded = true
      /\ turtle_of doc = Some turtle
      /\ (mime = Some "application/rdf+xml" \/ mime = Some "application/n-triples")
  end.

Definition is_some {A : Type} (x : option A) : bool :=
  match x with
  | Some _ => true
  | None => false
  end.

(** ** The table renderer: [utils.linkify], [DataRenderer]

    Strings are read as the UTF-8 bytes of their text, which is what the
    whitespace class of the link pattern needs. *)

(** Whether the text starts with a character of the class [\s]: a tab,
    a line feed, a vertical tab, a form feed, a carriage return, a space,
    or U+00A0, U+1680, U+2000 to U+200A, U+2028, U+2029, U+202F, U+205F,
    U+3000, U+FEFF. *)
Definition starts_with_space (s : string) : bool :=
  match s with
  | EmptyString => false
  | String c rest =>
      let n := nat_of_ascii c in
      (Nat.leb 9 n && Nat.leb n 13) || Nat.eqb n 32
      || match rest with
         | String c2 rest2 =>
             let n2 := nat_of_ascii c2 in
             (Nat.eqb n 194 && Nat.eqb n2 160)
             || match rest2 with
                | String c3 _ =>
                    let n3 := nat_of_ascii c3 in
                    (Nat.eqb n 225 && Nat.eqb n2 154 && Nat.eqb n3 128)
                    || (Nat.eqb n 226 && Nat.eqb n2 128
                        && ((Nat.leb 128 n3 && Nat.leb n3 138)
                            || Nat.eqb n3 168 || Nat.eqb n3 169 || Nat.eqb n3 175))
                    || (Nat.eqb n 226 && Nat.eqb n2 129 && Nat.eqb n3 159)
                    || (Nat.eqb n 227 && Nat.eqb n2 128 && Nat.eqb n3 128)
                    || (Nat.eqb n 239 && Nat.eqb n2 187 && Nat.eqb n3 191)
                | EmptyString => false
                end
         | EmptyString => false
         end
  end.

Fixpoint has_space (s : string) : bool :=
  starts_with_space s
  || match s with
     | EmptyString => false
     | String _ rest => has_space rest
     end.

(** The test [/^https?:\/\/[^\s]+$/]. *)
Definition is_link (s : string) : bool :=
  ((prefix "http://" s && negb (String.eqb s "http://"))
   || (prefix "https://" s && negb (String.eqb s "https://")))
  && negb (has_space s).

Definition anchor (s : string) : string :=
  "<a href=" ++ dq ++ s ++ dq ++ " target=" ++ dq ++ "_blank" ++ dq
    ++ " rel=" ++ dq ++ "noopener" ++ dq ++ ">" ++ s ++ "</a>".

(** [utils.isPrimitive]. *)
Definition isPrimitive (v : value) : bool :=
  match v with
  | VStr _ | VNum _ | VBool _ => true
  | _ => false
  end.

(** [String(utils.linkify(v))]: [linkify] returns the anchor for a
    string that passes the test and its argument otherwise. *)
Definition linkify (v : value) : string :=
  match v with
  | VStr s => if is_link s then anchor s else s
  | _ => ToString v
  end.

(** [Object.keys] on a mapping or an array. *)
Definition Object_keys (v : value) : list string :=
  match Object_entries v with
  | Some es => keys es
  | None => []
  end.

(** [[...new Set(l)]]: the first occurrence of every string, in order. *)
Fixpoint unique (seen : list string) (l : list string) : list string :=
  match l with
  | [] => []
  | k :: rest =>
      if existsb (String.eqb k) seen then unique seen rest
      else k :: unique (k :: seen) rest
  end.

(** The header of line 33: [[...new Set(val.flatMap(Object.keys))]]. *)
Definition header_keys (items : list value) : list string :=
  unique [] (flat_map Object_keys items).

Definition empty_marker : string := "<i>(empty)</i>".
Definition empty_sub_table : string :=
  "<table class=" ++ dq ++ "json-sub-table" ++ dq ++ "><tbody></tbody></table>".

(** [render(obj[k])] for a mapping or an array [obj]: the own property
    when there is one; otherwise what the prototype gives, which is the
    prototype itself under [__proto__] (an empty mapping, or an empty
    array), and a function or nothing under any other key. The length
    of an array is a number, rendered by [render_length]. *)
Definition cell (render : value -> string) (render_length : Z -> string)
    (obj : value) (k : string) : string :=
  match obj with
  | VObj es =>
      (fix own (es : entries) : string :=
         match es with
         | [] => if String.eqb k "__proto__" then empty_sub_table else EmptyString
         | (k', v) :: rest => if String.eqb k k' then render v else own rest
         end) es
  | VArr items =>
      (fix at_index (i : nat) (l : list value) : string :=
         match l with
         | [] =>
             if String.eqb k "length"
             then render_length (Z.of_nat (List.length items))
             else if String.eqb k "__proto__" then empty_marker
             else EmptyString
         | x :: rest => if String.eqb k (index_key i) then render x else at_index (S i) rest
         end) 0 items
  | _ => EmptyString
  end.

Module DataRenderer.

Section Renderer.

Variable decodeHtmlEntities : string -> string.

(** [JSON.stringify(val, null, 2)]. *)
Variable JSON_stringify_pretty : value -> string.

Fixpoint renderValue (val : value) : string :=
  match val with
  | VStr _ | VNum _ | VBool _ => linkify (VStr (decodeHtmlEntities (ToString val)))
  | VArr items =>
      match items with
      | [] => empty_marker
      | _ =>
          if forallb isPrimitive items then
            "<ul>" ++ join EmptyString (map (fun e => "<li>" ++ linkify e ++ "</li>") items)
                   ++ "</ul>"
          else if forallb isObject items then
            let keys := header_keys items in
            let rows :=
              join EmptyString
                (map (fun obj =>
                        "<tr>" ++ join EmptyString
                                    (map (fun k =>
                                            "<td>"
                                            ++ cell (fun v => renderValue v)
                                                 (fun n => linkify
                                                    (VStr (decodeHtmlEntities
                                                             (Number_toString n))))
                                                 obj k
                                            ++ "</td>") keys)
                               ++ "</tr>")
                     items) in
            "<table class=" ++ dq ++ "json-sub-table" ++ dq ++ "><thead><tr>"
              ++ join EmptyString (map (fun k => "<th>" ++ k ++ "</th>") keys)
              ++ "</tr></thead><tbody>" ++ rows ++ "</tbody></table>"
          else "<pre>" ++ decodeHtmlEntities (JSON_stringify_pretty val) ++ "</pre>"
      end
  | VObj es =>
      let rows :=
        join EmptyString
          (map (fun '(k, v) => "<tr><td><b>" ++ k ++ "</b></td><td>" ++ renderValue v
                                 ++ "</td></tr>")
               es) in
      "<table class=" ++ dq ++ "json-sub-table" ++ dq ++ "><tbody>" ++ rows
        ++ "</tbody></table>"
  | VUndefined | VNull => EmptyString
  end.

End Renderer.

End DataRenderer.

(** Further schedules for the examples: requests and a failed load
    before any document; Turtle requested and completed; RDF/XML
    requested and completed. *)
Definition failing_schedule : list event :=
  [CallShowView Turtle; CallLoadData; Settle 0 FetchRejected; CallShowView Nquads].

Definition turtle_shown_schedule : list event :=
  (loaded_schedule ++ [CallShowView Turtle; Settle 0 Resumed])%list.

Definition rdfxml_shown_schedule : list event :=
  (loaded_schedule ++ [CallShowView Rdfxml; Settle 0 Resumed])%list.

(** A document whose data holds the words that [download] looks for. *)
Definition status_report : value :=
  VObj [("@type", VStr "Report"); ("status", VStr "module not loaded yet")].

Definition status_shown_schedule : list event :=
  [CallLoadData; Settle 0 (Fetched status_report);
   CallShowView Turtle; Settle 0 Resumed].

(** What holds of the document of the explorer: there is none, or it is
    a mapping on which [isJSONLD] is truthy. *)
Definition semantic_or_absent (d : value) : Prop :=
  d = VNull \/ ((exists o, d = VObj o) /\ truthy (isJSONLD d) = true).

(** ** Facts about text and lists *)

Lemma append_assoc (a b c : string) : (a ++ b) ++ c = a ++ b ++ c.
Proof.
  induction a as [|ch a IH]; simpl; [reflexivity|].
  now rewrite IH.
Qed.

Lemma select_map_filter {A B : Type} (keep : A -> bool) (f : A -> B) (l : list A) :
  select_map keep f l = map f (filter keep l).
Proof.
  unfold select_map.
  induction l as [|x l IH]; simpl; [reflexivity|].
  destruct (keep x); simpl; now rewrite IH.
Qed.

Lemma join_terminated (l : string) (rest : list string) :
  join (" ;" ++ nl) (l :: rest) ++ " ." ++ nl = terminated (l :: rest).
Proof.
  revert l.
  induction rest as [|l' rest IH]; intros l.
  - reflexivity.
  - change (join (" ;" ++ nl) (l :: l' :: rest))
      with (l ++ (" ;" ++ nl) ++ join (" ;" ++ nl) (l' :: rest)).
    change (terminated (l :: l' :: rest))
      with (l ++ " ;" ++ nl ++ terminated (l' :: rest)).
    rewrite <- IH.
    now rewrite !append_assoc.
Qed.

Lemma forallb_not_object (items : list value) :
  forallb (fun e => negb (isObject e)) items
  = negb (existsb (fun e => isMapping e || Array_isArray e) items).
Proof.
  induction items as [|e items IH]; simpl; [reflexivity|].
  rewrite IH, negb_orb.
  now destruct e.
Qed.

(** ** The Turtle writer *)

Section ConverterProperties.

Variable decodeHtmlEntities : string -> string.
Variable JSON_stringify : value -> string.

Local Abbreviation formatValue := (formatValue decodeHtmlEntities JSON_stringify).
Local Abbreviation toTurtle := (toTurtle decodeHtmlEntities JSON_stringify).
Local Abbreviation property_lines := (property_lines decodeHtmlEntities JSON_stringify).

Lemma property_lines_eq (o : entries) :
  property_lines o
  = map (fun '(key, v) =>
           "  " ++ (if includes key ":" then key else "schema:" ++ key) ++ " "
                ++ text_of (formatValue v "  "))
        (filter (fun '(key, _) =>
                   negb (String.eqb key "@context") && negb (String.eqb key "@type")) o).
Proof.
  unfold RDFConverter.property_lines.
  f_equal.
  apply filter_ext.
  intros [key v]. unfold includes_key. simpl.
  now rewrite orb_false_r, negb_orb.
Qed.

Lemma toTurtle_object (o : entries) :
  toTurtle (VObj o)
  = Some (prefix_declarations ++ "<> a schema:"
            ++ (if truthy (get o "@type") then ToString (get o "@type") else "Resource")
            ++ " ;" ++ nl ++ join (" ;" ++ nl) (property_lines o) ++ " ." ++ nl).
Proof.
  unfold RDFConverter.toTurtle, js_or. simpl.
  now destruct (truthy (get o "@type")).
Qed.

(** C1 (amended): on a mapping, [toTurtle] emits the prefix declarations
    and then the subject block: the line [<> a schema:T ;], where T is the
    text of the [@type] entry when that entry is truthy and [Resource]
    otherwise, then one line per key other than [@context] and [@type], in
    the order of the entries, whose predicate is the key itself when it
    holds a colon and the key after [schema:] otherwise; every line ends in
    [ ;] but the last, which ends in [ .]; with no such key the subject
    line is followed by the line [ .] alone. *)
Theorem toTurtle_subject_block (o : entries) :
  let T := if truthy (get o "@type") then ToString (get o "@type") else "Resource" in
  let line := fun '(key, v) =>
    "  " ++ (if includes key ":" then key else "schema:" ++ key) ++ " "
         ++ text_of (formatValue v "  ") in
  let others := filter (fun '(key, _) =>
    negb (String.eqb key "@context") && negb (String.eqb key "@type")) o in
  toTurtle (VObj o)
  = Some (prefix_declarations ++ "<> a schema:" ++ T ++ " ;" ++ nl
            ++ match others with
               | [] => " ." ++ nl
               | _ => terminated (map line others)
               end).
Proof.
  intros T line others.
  rewrite toTurtle_object, property_lines_eq.
  fold line others T.
  destruct others as [|p rest]; [reflexivity|].
  do 6 f_equal.
  apply join_terminated.
Qed.

(** Where the wording of the subject block and the writer agree: the
    [@type] entry missing or truthy, and at least one property. *)
Lemma worded_subject_block_agrees (o : entries) :
  lookup "@type" o = None \/ truthy (get o "@type") = true ->
  property_lines o <> [] ->
  toTurtle (VObj o)
  = Some (prefix_declarations ++ worded_subject_block o (property_lines o)).
Proof.
  intros Ht Hp. rewrite toTurtle_object.
  unfold worded_subject_block, type_if_present.
  assert (E : (if truthy (get o "@type") then ToString (get o "@type") else "Resource")
              = match lookup "@type" o with
                | Some t => ToString t
                | None => "Resource"
                end).
  { unfold get in *. destruct (lookup "@type" o); [|reflexivity].
    destruct Ht as [Ht|Ht]; [discriminate | now rewrite Ht]. }
  rewrite E.
  destruct (property_lines o) as [|l rest]; [congruence|].
  do 6 f_equal. apply join_terminated.
Qed.

(** C2 (amended): for a non-empty sequence, the elements being formatted
    one indentation step deeper: when no element is a mapping or a
    sequence, the result is [(], then on one indented line the formatted
    elements separated by single spaces, then [)] on a line at the outer
    indentation; when some element is a mapping or a sequence, and so
    whenever some element is a mapping, it is the formatted elements joined
    by [ ,], a line break and the indentation. *)
Theorem formatValue_sequence_layout (indent : string) (e : value) (rest : list value) :
  let items := e :: rest in
  let its := map (fun x => text_of (formatValue x (indent ++ "  "))) items in
  (existsb (fun x => isMapping x || Array_isArray x) items = false ->
   formatValue (VArr items) indent
   = FText ("(" ++ nl ++ indent ++ "  " ++ join " " its ++ nl ++ indent ++ ")"))
  /\ (existsb (fun x => isMapping x || Array_isArray x) items = true ->
      formatValue (VArr items) indent = FText (join (" ," ++ nl ++ indent) its))
  /\ (existsb isMapping items = true ->
      formatValue (VArr items) indent = FText (join (" ," ++ nl ++ indent) its)).
Proof.
  intros items its.
  assert (E : formatValue (VArr items) indent
              = FText (if forallb (fun x => negb (isObject x)) items
                       then "(" ++ nl ++ indent ++ "  " ++ join " " its ++ nl ++ indent ++ ")"
                       else join (" ," ++ nl ++ indent) its)) by reflexivity.
  rewrite forallb_not_object in E.
  assert (M : existsb isMapping items = true ->
              existsb (fun x => isMapping x || Array_isArray x) items = true).
  { rewrite !existsb_exists. intros [x [Hin Hx]]. exists x. now rewrite Hx. }
  repeat split; intros H; try apply M in H; now rewrite E, H.
Qed.

(** The typed-node case of [formatValue], with the filter and the map of
    lines 102-107. *)
Lemma formatValue_typed_node (o : entries) (indent : string) :
  truthy (get o "@type") = true ->
  formatValue (VObj o) indent
  = FText ("[" ++ nl ++ indent ++ "  a schema:" ++ ToString (get o "@type") ++ " ;" ++ nl
             ++ join (" ;" ++ nl)
                  (map (fun '(k, e) => indent ++ "  " ++ predicate k ++ " "
                                       ++ text_of (formatValue e (indent ++ "  ")))
                       (filter (fun '(k, _) => negb (String.eqb k "@type")) o))
             ++ nl ++ indent ++ "]").
Proof.
  intros H. cbn [RDFConverter.formatValue]. rewrite H.
  now rewrite select_map_filter.
Qed.

Lemma friends_turtle :
  decodeHtmlEntities "Bob" = "Bob" ->
  toTurtle person_with_friends
  = Some (prefix_declarations ++ "<> a schema:Person ;" ++ nl
            ++ "  schema:friends " ++ nested_bob_node ++ " ." ++ nl).
Proof.
  intros H.
  unfold person_with_friends. rewrite toTurtle_object.
  unfold RDFConverter.property_lines, bob. simpl.
  now rewrite H.
Qed.

(** C5 (amended): in the Turtle text of the document
    [{"@type": "Person", "friends": [{"@type":"Person","name":"Bob"}]}]
    the nested friend is the anonymous typed node whose lines [a
    schema:Person ;] and [schema:name "Bob"] stand six spaces in and whose
    closing bracket stands four spaces in, the node being a sequence
    element inside a property value; the block with two spaces and none
    is what [formatValue] gives the friend at the empty indentation. *)
Theorem nested_friend_node :
  decodeHtmlEntities "Bob" = "Bob" ->
  toTurtle person_with_friends
  = Some (prefix_declarations ++ "<> a schema:Person ;" ++ nl
            ++ "  schema:friends " ++ nested_bob_node ++ " ." ++ nl)
  /\ formatValue (VArr [bob]) "  " = FText nested_bob_node
  /\ formatValue bob "    " = FText nested_bob_node
  /\ formatValue bob EmptyString = FText worded_bob_node.
Proof.
  intros H.
  split; [now apply friends_turtle|].
  unfold bob. simpl. rewrite H. simpl.
  repeat split; reflexivity.
Qed.

(** C9: on [null] and on [undefined], whatever the indentation,
    [formatValue] returns the text made of two double quotes. *)
Theorem formatValue_absent (indent : string) :
  formatValue VNull indent = FText (dq ++ dq)
  /\ formatValue VUndefined indent = FText (dq ++ dq)
  /\ String.length (dq ++ dq) = 2.
Proof.
  repeat split; reflexivity.
Qed.

End ConverterProperties.

Lemma formatValue_sequence_layout_witness :
  formatValue sample_decode sample_stringify (VArr [VNum 1; VStr "a"; VNull]) EmptyString
  = FText ("(" ++ nl ++ "  1 " ++ dq ++ "a" ++ dq ++ " " ++ dq ++ dq ++ nl ++ ")")
  /\ formatValue sample_decode sample_stringify (VArr [VNum 1; VArr []]) "  "
     = FText ("1 ," ++ nl ++ "  ()").
Proof.
  split.
  - exact (proj1 (formatValue_sequence_layout sample_decode sample_stringify
                    EmptyString (VNum 1) [VStr "a"; VNull]) eq_refl).
  - exact (proj1 (proj2 (formatValue_sequence_layout sample_decode sample_stringify
                    "  " (VNum 1) [VArr []])) eq_refl).
Defined.

Lemma nested_friend_node_witness :
  sample_decode "Bob" = "Bob"
  /\ formatValue sample_decode sample_stringify bob "    " = FText nested_bob_node.
Proof.
  split; [reflexivity|].
  exact (proj1 (proj2 (proj2 (nested_friend_node sample_decode sample_stringify eq_refl)))).
Defined.

(** C1, as worded, fails on two documents. With [@type] the empty
    string the key is there and the subject line still names [Resource];
    with no property at all the subject line is still followed by a line
    [ .], which closes no property line. *)
Lemma toTurtle_subject_block_counterexample :
  (forall decode stringify,
     toTurtle decode stringify (VObj untyped_position)
     = Some (prefix_declarations ++ "<> a schema:Resource ;" ++ nl
               ++ "  schema:position 1 ." ++ nl)
     /\ toTurtle decode stringify (VObj untyped_position)
        <> Some (prefix_declarations
                   ++ worded_subject_block untyped_position
                        (property_lines decode stringify untyped_position)))
  /\ (forall decode stringify,
        toTurtle decode stringify (VObj bare_person)
        = Some (prefix_declarations ++ "<> a schema:Person ;" ++ nl ++ " ." ++ nl)
        /\ toTurtle decode stringify (VObj bare_person)
           <> Some (prefix_declarations
                      ++ worded_subject_block bare_person
                           (property_lines decode stringify bare_person))).
Proof.
  split; intros decode stringify; (split; [reflexivity|]);
    vm_compute; intros H; discriminate H.
Qed.

(** C2, as worded, fails on two sequences that hold no mapping: the
    elements of [[1, 2]] share one line, and [[[]]], whose element is a
    sequence, is laid out as a joined list, without parentheses of its
    own. *)
Lemma formatValue_sequence_counterexample :
  (forall decode stringify,
     existsb isMapping [VNum 1; VNum 2] = false
     /\ formatValue decode stringify (VArr [VNum 1; VNum 2]) EmptyString
        = FText ("(" ++ nl ++ "  1 2" ++ nl ++ ")")
     /\ formatValue decode stringify (VArr [VNum 1; VNum 2]) EmptyString
        <> FText (one_per_line EmptyString
                    (map (fun x => text_of (formatValue decode stringify x "  "))
                         [VNum 1; VNum 2])))
  /\ (forall decode stringify,
        existsb isMapping [VArr []] = false
        /\ formatValue decode stringify (VArr [VArr []]) EmptyString = FText "()"
        /\ formatValue decode stringify (VArr [VArr []]) EmptyString
           <> FText (one_per_line EmptyString
                       (map (fun x => text_of (formatValue decode stringify x "  "))
                            [VArr []]))).
Proof.
  split; intros decode stringify; (repeat split; try reflexivity);
    vm_compute; intros H; discriminate H.
Qed.

(** C5, as worded, fails on its own document: the Turtle text holds the
    friend's node at the indentation of its nesting, and the block with
    two spaces and none occurs nowhere in it. *)
Lemma nested_friend_counterexample :
  (forall decode stringify,
     decode "Bob" = "Bob" ->
     toTurtle decode stringify person_with_friends
     = Some (prefix_declarations ++ "<> a schema:Person ;" ++ nl
               ++ "  schema:friends " ++ nested_bob_node ++ " ." ++ nl))
  /\ includes (prefix_declarations ++ "<> a schema:Person ;" ++ nl
                 ++ "  schema:friends " ++ nested_bob_node ++ " ." ++ nl)
              worded_bob_node = false.
Proof.
  split; [apply friends_turtle | reflexivity].
Qed.

(** ** The normalizer *)

Lemma distinct_NoDup (l : list string) : distinct l = true <-> NoDup l.
Proof.
  induction l as [|k l IH]; simpl.
  - split; [constructor | reflexivity].
  - rewrite andb_true_iff, negb_true_iff, IH. split.
    + intros [Hk Hl]. constructor; [|assumption].
      intros Hin.
      assert (existsb (String.eqb k) l = true) as E
        by (apply existsb_exists; exists k; split; [assumption | apply String.eqb_refl]).
      congruence.
    + intros H. inversion H as [|? ? Hk Hl]; subst. split; [|assumption].
      destruct (existsb (String.eqb k) l) eqn:E; [|reflexivity].
      apply existsb_exists in E. destruct E as [x [Hin Hx]].
      apply String.eqb_eq in Hx. subst x. contradiction.
Qed.

Lemma lookup_none_iff (k : string) (o : entries) :
  lookup k o = None <-> ~ In k (keys o).
Proof.
  induction o as [|[k' v'] o IH]; simpl.
  - tauto.
  - destruct (String.eqb_spec k k') as [->|Hne].
    + split; [discriminate | intros H; exfalso; apply H; now left].
    + rewrite IH. split; [intros H [E|Hin]; [congruence | tauto] | tauto].
Qed.

Lemma keys_replace_value (k : string) (v : value) (o : entries) :
  keys (replace_value k v o) = keys o.
Proof.
  induction o as [|[k' v'] o IH]; simpl; [reflexivity|].
  destruct (String.eqb k k'); simpl; [reflexivity | now rewrite IH].
Qed.

Lemma lookup_replace_value (k k' : string) (v : value) (o : entries) :
  lookup k o <> None ->
  lookup k' (replace_value k v o) = if String.eqb k' k then Some v else lookup k' o.
Proof.
  induction o as [|[k1 v1] o IH]; simpl; [congruence|].
  destruct (String.eqb_spec k k1) as [->|Hne]; simpl.
  - intros _. now destruct (String.eqb k' k1).
  - intros H. rewrite (IH H).
    destruct (String.eqb_spec k' k1) as [->|Hne']; [|reflexivity].
    destruct (String.eqb_spec k1 k); congruence.
Qed.

Lemma lookup_insert_index (n : N) (k k' : string) (v : value) (o : entries) :
  lookup k o = None ->
  lookup k' (insert_index n k v o) = if String.eqb k' k then Some v else lookup k' o.
Proof.
  induction o as [|[k1 v1] o IH]; simpl; [reflexivity|].
  destruct (String.eqb_spec k k1) as [->|Hne]; [discriminate|].
  intros H.
  destruct (array_index k1) as [m|]; [destruct (n <? m)%N|]; simpl; try reflexivity.
  rewrite (IH H).
  destruct (String.eqb_spec k' k1) as [->|Hne']; [|reflexivity].
  destruct (String.eqb_spec k1 k); congruence.
Qed.

Lemma keys_insert_index (n : N) (k x : string) (v : value) (o : entries) :
  In x (keys (insert_index n k v o)) <-> x = k \/ In x (keys o).
Proof.
  induction o as [|[k1 v1] o IH]; simpl; [intuition congruence|].
  destruct (array_index k1) as [m|]; [destruct (n <? m)%N|]; simpl;
    try rewrite IH; intuition congruence.
Qed.

Lemma NoDup_insert_index (n : N) (k : string) (v : value) (o : entries) :
  ~ In k (keys o) -> NoDup (keys o) -> NoDup (keys (insert_index n k v o)).
Proof.
  induction o as [|[k1 v1] o IH]; simpl; intros Hk Hnd.
  - constructor; [tauto | constructor].
  - inversion Hnd as [|? ? H1 H2]; subst.
    destruct (array_index k1) as [m|]; [destruct (n <? m)%N|]; simpl.
    + constructor; [simpl; tauto | assumption].
    + constructor; [rewrite keys_insert_index; intuition congruence | apply IH; tauto].
    + constructor; [simpl; tauto | assumption].
Qed.

Lemma lookup_app_last (k k' : string) (v : value) (o : entries) :
  lookup k o = None ->
  lookup k' (o ++ [(k, v)])%list = if String.eqb k' k then Some v else lookup k' o.
Proof.
  induction o as [|[k1 v1] o IH]; simpl; [reflexivity|].
  destruct (String.eqb_spec k k1) as [->|Hne]; [discriminate|].
  intros H. rewrite (IH H).
  destruct (String.eqb_spec k' k1) as [->|Hne']; [|reflexivity].
  destruct (String.eqb_spec k1 k); congruence.
Qed.

(** Defining a property sets it and leaves every other one. *)
Lemma lookup_define_property (o : entries) (k k' : string) (v : value) :
  lookup k' (define_property o k v) = if String.eqb k' k then Some v else lookup k' o.
Proof.
  unfold define_property.
  destruct (lookup k o) eqn:E.
  - apply lookup_replace_value. congruence.
  - destruct (array_index k); [now apply lookup_insert_index | now apply lookup_app_last].
Qed.

Lemma wf_define_property (o : entries) (k : string) (v : value) :
  wf_object o -> wf_object (define_property o k v).
Proof.
  unfold wf_object, define_property. rewrite !distinct_NoDup.
  intros Hnd.
  destruct (lookup k o) eqn:E.
  - now rewrite keys_replace_value.
  - apply lookup_none_iff in E.
    destruct (array_index k); [now apply NoDup_insert_index|].
    unfold keys. rewrite map_app. simpl.
    apply NoDup_app; [assumption | constructor; [tauto | constructor] |].
    intros x Hx [<-|[]]. contradiction.
Qed.

Lemma length_define_property (o : entries) (k : string) (v : value) :
  lookup k o = None -> List.length (define_property o k v) = S (List.length o).
Proof.
  unfold define_property. intros ->.
  destruct (array_index k) as [n|].
  - induction o as [|[k1 v1] o IH]; simpl; [reflexivity|].
    destruct (array_index k1) as [m|]; [destruct (n <? m)%N|]; simpl; congruence.
  - rewrite length_app. simpl. lia.
Qed.

Lemma wf_define_all (props o : entries) :
  wf_object o -> wf_object (define_all o props).
Proof.
  unfold define_all. revert o.
  induction props as [|[k v] props IH]; simpl; intros o H; [assumption|].
  apply IH. now apply wf_define_property.
Qed.

Lemma lookup_define_all (props o : entries) (k : string) :
  wf_object props ->
  lookup k (define_all o props)
  = match lookup k props with
    | Some v => Some v
    | None => lookup k o
    end.
Proof.
  unfold define_all, wf_object. revert o.
  induction props as [|[k1 v1] props IH]; simpl; intros o H; [reflexivity|].
  apply andb_true_iff in H. destruct H as [H1 H2].
  rewrite (IH _ H2), lookup_define_property.
  destruct (String.eqb_spec k k1) as [->|Hne]; [|reflexivity].
  assert (lookup k1 props = None) as ->; [|reflexivity].
  apply lookup_none_iff. intros Hin.
  apply negb_true_iff in H1.
  assert (existsb (String.eqb k1) (keys props) = true)
    by (apply existsb_exists; exists k1; split; [assumption | apply String.eqb_refl]).
  congruence.
Qed.

Lemma length_define_all (props o : entries) :
  wf_object props ->
  (forall k, lookup k props <> None -> lookup k o = None) ->
  List.length (define_all o props) = List.length o + List.length props.
Proof.
  unfold define_all, wf_object. revert o.
  induction props as [|[k1 v1] props IH]; simpl; intros o H Hd; [lia|].
  apply andb_true_iff in H. destruct H as [H1 H2].
  assert (lookup k1 props = None) as Hk1.
  { apply lookup_none_iff. intros Hin. apply negb_true_iff in H1.
    assert (existsb (String.eqb k1) (keys props) = true)
      by (apply existsb_exists; exists k1; split; [assumption | apply String.eqb_refl]).
    congruence. }
  rewrite IH; [|assumption|].
  - rewrite length_define_property; [lia|].
    apply Hd. rewrite String.eqb_refl. discriminate.
  - intros k Hk. rewrite lookup_define_property.
    destruct (String.eqb_spec k k1) as [->|Hne]; [congruence|].
    apply Hd. destruct (String.eqb_spec k k1); congruence.
Qed.

Lemma filter_without_markers (o : entries) :
  lookup "@context" o = None -> lookup "@type" o = None ->
  filter (fun '(k, _) => negb (includes_key ["@context"; "@type"] k)) o = o.
Proof.
  induction o as [|[k v] o IH]; [reflexivity|].
  intros H1 H2.
  change (lookup "@context" ((k, v) :: o))
    with (if String.eqb "@context" k then Some v else lookup "@context" o) in H1.
  change (lookup "@type" ((k, v) :: o))
    with (if String.eqb "@type" k then Some v else lookup "@type" o) in H2.
  cbn [filter].
  change (includes_key ["@context"; "@type"] k)
    with (String.eqb k "@context" || (String.eqb k "@type" || false)).
  rewrite (String.eqb_sym k "@context"), (String.eqb_sym k "@type").
  destruct (String.eqb "@context" k); [discriminate|].
  destruct (String.eqb "@type" k); [discriminate|].
  cbn [orb negb]. now rewrite IH.
Qed.

(** C3: for the entries [raw] of a mapping with neither marker key,
    [wrapGenericData] returns a mapping in which every key of [raw] has
    the value it has in [raw], [@context] is the binding of [schema] to
    [https://schema.org/], [@type] is [Resource], no other key occurs
    (two entries more than [raw], keys still distinct), and on which
    [isJSONLD] is truthy. *)
Theorem wrapGenericData_keeps_and_marks (raw : entries) :
  wf_object raw ->
  lookup "@context" raw = None ->
  lookup "@type" raw = None ->
  exists w,
    wrapGenericData (VObj raw) = Some (VObj w)
    /\ (forall k v, lookup k raw = Some v -> lookup k w = Some v)
    /\ lookup "@context" w = Some (VObj [("schema", VStr "https://schema.org/")])
    /\ lookup "@type" w = Some (VStr "Resource")
    /\ (forall k, lookup k w <> None ->
                  k = "@context" \/ k = "@type" \/ lookup k raw <> None)
    /\ wf_object w
    /\ List.length w = 2 + List.length raw
    /\ truthy (isJSONLD (VObj w)) = true.
Proof.
  intros Hwf Hc Ht.
  unfold wrapGenericData. cbn [Object_entries].
  rewrite (filter_without_markers raw Hc Ht).
  eexists. split; [reflexivity|].
  change (define_all [] [("@context", generic_context); ("@type", VStr "Resource")])
    with [("@context", generic_context); ("@type", VStr "Resource")].
  set (base := [("@context", generic_context); ("@type", VStr "Resource")]).
  set (copied := Object_fromEntries raw).
  assert (Hcopied : forall k, lookup k copied = lookup k raw).
  { intros k. unfold copied, Object_fromEntries.
    rewrite (lookup_define_all raw [] k Hwf). now destruct (lookup k raw). }
  assert (Hwfc : wf_object copied)
    by (apply wf_define_all; reflexivity).
  assert (Hw : forall k, lookup k (define_all base copied)
                         = match lookup k raw with
                           | Some v => Some v
                           | None => lookup k base
                           end).
  { intros k. now rewrite (lookup_define_all copied base k Hwfc), Hcopied. }
  assert (Hbase : forall k, lookup k raw <> None -> lookup k base = None).
  { intros k Hk. unfold base. cbn [lookup].
    destruct (String.eqb_spec k "@context") as [->|_]; [congruence|].
    destruct (String.eqb_spec k "@type") as [->|_]; [congruence|reflexivity]. }
  repeat split.
  - intros k v H. now rewrite Hw, H.
  - now rewrite Hw, Hc.
  - now rewrite Hw, Ht.
  - intros k. rewrite Hw.
    destruct (lookup k raw); [intros _; right; right; discriminate|].
    unfold base. cbn [lookup].
    destruct (String.eqb_spec k "@context"); [now left|].
    destruct (String.eqb_spec k "@type"); [right; now left | congruence].
  - apply wf_define_all. reflexivity.
  - rewrite length_define_all; [| assumption | intros k; rewrite Hcopied; apply Hbase].
    unfold copied, Object_fromEntries.
    rewrite length_define_all; [reflexivity | assumption | reflexivity].
  - unfold isJSONLD, get_opt, get. now rewrite Hw, Hc.
Qed.

Lemma wrapGenericData_keeps_and_marks_witness :
  exists w,
    wrapGenericData (VObj alice) = Some (VObj w)
    /\ lookup "name" w = Some (VStr "Alice")
    /\ lookup "homepage" w = Some (VStr "https://alice.example")
    /\ List.length w = 4
    /\ truthy (isJSONLD (VObj w)) = true.
Proof.
  destruct (wrapGenericData_keeps_and_marks alice eq_refl eq_refl eq_refl)
    as (w & Hw & Hkeep & _ & _ & _ & _ & Hlen & Hsem).
  exists w. repeat split.
  - exact Hw.
  - apply Hkeep. reflexivity.
  - apply Hkeep. reflexivity.
  - exact Hlen.
  - exact Hsem.
Defined.

Lemma semantic_is_mapping (raw : value) :
  truthy (isJSONLD raw) = true -> exists o, raw = VObj o.
Proof.
  destruct raw; try discriminate. intros _. now eexists.
Qed.

Lemma normalize_truthy (d doc : value) :
  normalize d = Some doc -> truthy doc = true.
Proof.
  unfold normalize.
  destruct (truthy (isJSONLD d)) eqn:E.
  - intros [= <-]. destruct (semantic_is_mapping d E) as [o ->]. reflexivity.
  - unfold wrapGenericData. destruct (Object_entries d); [|discriminate].
    now intros [= <-].
Qed.

(** ** The controller *)

Lemma nth_error_app_last {A : Type} (l : list A) (x : A) :
  nth_error (l ++ [x]) (List.length l) = Some x.
Proof.
  rewrite nth_error_app2 by lia. now rewrite Nat.sub_diag.
Qed.

Lemma remove_nth_app_last {A : Type} (l : list A) (x : A) :
  remove_nth (List.length l) (l ++ [x]) = l.
Proof.
  unfold remove_nth.
  induction l as [|a l IH]; [reflexivity|].
  cbn [List.length firstn skipn app] in *. now rewrite IH.
Qed.

Lemma Forall_remove_nth {A : Type} (P : A -> Prop) (i : nat) (l : list A) :
  Forall P l -> Forall P (remove_nth i l).
Proof.
  intros H. revert i. unfold remove_nth.
  induction H as [|a l Ha Hl IH]; intros [|i]; cbn; try constructor; auto.
Qed.

Lemma toTurtle_truthy decode stringify (d : value) :
  truthy d = true -> exists t, toTurtle decode stringify d = Some t.
Proof.
  destruct d; try discriminate; intros _; unfold toTurtle; cbn [Object_entries];
    eexists; reflexivity.
Qed.

Section ControllerProperties.

Variable decodeHtmlEntities : string -> string.
Variable JSON_stringify : value -> string.
Variable renderValue : value -> string.
Variable rdflib : option (string -> option string -> string + string).
Variable jsonld_loaded : bool.

Local Abbreviation generateContent :=
  (generateContent decodeHtmlEntities JSON_stringify rdflib jsonld_loaded).
Local Abbreviation handleAsyncNQuads := (handleAsyncNQuads jsonld_loaded).
Local Abbreviation renderContent := (renderContent jsonld_loaded).
Local Abbreviation render_and_show := (render_and_show jsonld_loaded).
Local Abbreviation showView_resume := (showView_resume jsonld_loaded).
Local Abbreviation showView :=
  (showView decodeHtmlEntities JSON_stringify rdflib jsonld_loaded).
Local Abbreviation loadData_resume :=
  (loadData_resume decodeHtmlEntities JSON_stringify renderValue rdflib jsonld_loaded).
Local Abbreviation step :=
  (step decodeHtmlEntities JSON_stringify renderValue rdflib jsonld_loaded).
Local Abbreviation run :=
  (run decodeHtmlEntities JSON_stringify renderValue rdflib jsonld_loaded).
Local Abbreviation reachable :=
  (reachable decodeHtmlEntities JSON_stringify renderValue rdflib jsonld_loaded).

(** What [render_and_show] and [showView] leave as it is, and how they
    extend the suspended calls. *)
Lemma render_and_show_frame (s : explorer) (f : format) (content : string) :
  data (render_and_show s f content) = data s
  /\ cache (render_and_show s f content) = cache s
  /\ currentFormat (render_and_show s f content) = currentFormat s
  /\ exists extra, suspended (render_and_show s f content) = (suspended s ++ extra)%list
                   /\ Forall derived_task extra.
Proof.
  unfold JSONLDExplorer.render_and_show, JSONLDExplorer.renderContent.
  destruct (format_eqb f Nquads && _ && _).
  - unfold JSONLDExplorer.handleAsyncNQuads, toNQuads.
    destruct jsonld_loaded; cbn; repeat split; eexists; split;
      try reflexivity; repeat constructor.
  - cbn. repeat split. exists []. split; [now rewrite app_nil_r | constructor].
Qed.

Lemma showView_frame (s : explorer) (f : format) :
  data (showView s f) = data s
  /\ cache (showView s f) = cache s
  /\ exists extra, suspended (showView s f) = (suspended s ++ extra)%list
                   /\ Forall derived_task extra.
Proof.
  assert (N : exists extra : list task,
             suspended s = (suspended s ++ extra)%list /\ Forall derived_task extra)
    by (exists []; split; [now rewrite app_nil_r | constructor]).
  unfold JSONLDExplorer.showView.
  destruct (truthy (data s)); cbn [negb]; [|now repeat split].
  destruct (format_eqb f Table) eqn:Ef; [now repeat split|].
  match goal with |- context [falsy_text ?c] => destruct (falsy_text c) end.
  - match goal with |- context [JSONLDExplorer.generateContent ?a ?b ?c ?d ?e ?g] =>
      destruct (JSONLDExplorer.generateContent a b c d e g) as [[w c']|] end;
      [|now repeat split].
    cbn. repeat split. exists [InShowView f w]. split; [reflexivity|].
    constructor; [|constructor]. now destruct f.
  - match goal with |- context [match ?c with Some _ => _ | None => _ end] =>
      destruct c as [content|] end; [|now repeat split].
    match goal with |- context [JSONLDExplorer.render_and_show _ ?s2 _ _] =>
      destruct (render_and_show_frame s2 f content) as (Hd & Hc & _ & He) end.
    now repeat split.
Qed.

Lemma showView_resume_frame (s : explorer) (f : format) (content : string) :
  f <> Table ->
  data (showView_resume s f content) = data s
  /\ cache (showView_resume s f content) Table = cache s Table
  /\ exists extra, suspended (showView_resume s f content) = (suspended s ++ extra)%list
                   /\ Forall derived_task extra.
Proof.
  intros Hf. unfold JSONLDExplorer.showView_resume.
  match goal with |- context [JSONLDExplorer.render_and_show _ ?s1 _ _] =>
    destruct (render_and_show_frame s1 f content) as (Hd & Hc & _ & He) end.
  rewrite Hd, Hc. repeat split; [|exact He].
  cbn. unfold assign. now destruct f.
Qed.

Lemma loadData_resume_frame (s : explorer) (d : value) :
  (data (loadData_resume s d) = data s /\ cache (loadData_resume s d) = cache s
   \/ truthy (data (loadData_resume s d)) = true
      /\ cache (loadData_resume s d) = fun _ => None)
  /\ suspended (loadData_resume s d) = suspended s.
Proof.
  unfold JSONLDExplorer.loadData_resume.
  destruct (normalize d) as [doc|] eqn:En; [|split; [now left | reflexivity]].
  apply normalize_truthy in En.
  unfold renderTable. destruct (Object_entries d); [|split; [now right | reflexivity]].
  unfold JSONLDExplorer.showView. cbn. rewrite En. cbn. split; [now right | reflexivity].
Qed.

Lemma coherent_extend (s s' : explorer) (extra : list task) :
  coherent s ->
  truthy (data s) = true ->
  data s' = data s ->
  cache s' Table = cache s Table ->
  suspended s' = (suspended s ++ extra)%list ->
  Forall derived_task extra ->
  coherent s'.
Proof.
  intros (H1 & H2 & _) Ht Hd Hc Hs He. unfold coherent.
  rewrite Hd, Hc, Hs. repeat split; [assumption | | now left].
  apply Forall_app. now split.
Qed.

(** Every turn of the event loop keeps the explorer coherent. *)
Lemma step_coherent (s : explorer) (e : event) :
  coherent s -> coherent (step s e).
Proof.
  intros H. pose proof H as (H1 & H2 & H3).
  destruct e as [f|  |i r]; cbn [JSONLDExplorer.step].
  - destruct (truthy (data s)) eqn:Et.
    + destruct (showView_frame s f) as (Hd & Hc & extra & Hs & He).
      apply (coherent_extend s _ extra); auto. now rewrite Hc.
    + unfold JSONLDExplorer.showView. now rewrite Et.
  - unfold loadData, coherent. cbn. repeat split; [assumption | |].
    + apply Forall_app. split; [assumption | repeat constructor].
    + destruct H3 as [H3|[H3 H4]]; [now left | right].
      split; [assumption|]. apply Forall_app. split; [assumption | repeat constructor].
  - destruct (nth_error (suspended s) i) as [t|] eqn:En; [|assumption].
    pose proof (nth_error_In _ _ En) as Hin.
    assert (Hok : derived_task t) by (rewrite Forall_forall in H2; now apply H2).
    set (s' := with_suspended s (remove_nth i (suspended s))).
    assert (Hs' : coherent s').
    { unfold coherent. cbn. repeat split; [assumption | now apply Forall_remove_nth |].
      destruct H3 as [H3|[H3 H4]]; [now left | right].
      split; [assumption | now apply Forall_remove_nth]. }
    assert (Htruthy : t <> InLoadData -> truthy (data s) = true).
    { intros Ht. destruct H3 as [H3|[_ H4]]; [assumption|].
      rewrite Forall_forall in H4. now apply H4 in Hin. }
    destruct t as [f w|w|].
    + destruct (settled w r) as [content|]; [|assumption].
      assert (Hf : f <> Table) by (intros ->; exact Hok).
      destruct (showView_resume_frame s' f content Hf) as (Hd & Hc & extra & Hs & He).
      apply (coherent_extend s' _ extra); auto. apply Htruthy. discriminate.
    + destruct (settled w r) as [nquads|]; [|assumption].
      apply (coherent_extend s' _ []); auto.
      * apply Htruthy. discriminate.
      * unfold handleAsyncNQuads_resume. now destruct (format_eqb _ _).
      * unfold handleAsyncNQuads_resume. now destruct (format_eqb _ _).
      * unfold handleAsyncNQuads_resume. cbn.
        destruct (format_eqb _ _); cbn; now rewrite app_nil_r.
    + destruct r; try assumption; try exact Hs'.
      destruct (loadData_resume_frame s' data0) as ([[Hd Hc]|[Hd Hc]] & Hs).
      * destruct Hs' as (K1 & K2 & K3). unfold coherent.
        rewrite Hd, Hc, Hs. now repeat split.
      * destruct Hs' as (K1 & K2 & K3). unfold coherent.
        rewrite Hd, Hc, Hs. repeat split; [assumption | now left].
Qed.

Lemma run_coherent (es : list event) (s : explorer) :
  coherent s -> coherent (run s es).
Proof.
  revert s. induction es as [|e es IH]; intros s H; [assumption|].
  apply IH. now apply step_coherent.
Qed.

Lemma reachable_coherent (s : explorer) : reachable s -> coherent s.
Proof.
  intros [es <-]. apply run_coherent.
  unfold coherent. cbn. repeat split; [constructor | right].
  split; [reflexivity | constructor].
Qed.

(** C8: when [isJSONLD] is truthy on the fetched tree, line 224 takes the
    tree itself: [normalize] returns it, and the load that resumes with it
    leaves it, unchanged, as the explorer's document. *)
Theorem normalize_semantic_identity (raw : value) (s : explorer) :
  truthy (isJSONLD raw) = true ->
  normalize raw = Some raw
  /\ data (loadData_resume s raw) = raw.
Proof.
  intros H.
  assert (N : normalize raw = Some raw) by (unfold normalize; now rewrite H).
  split; [exact N|].
  unfold JSONLDExplorer.loadData_resume. rewrite N.
  destruct (semantic_is_mapping raw H) as [o ->].
  unfold renderTable. cbn [Object_entries]. cbn [data with_elements].
  match goal with |- data (JSONLDExplorer.showView _ _ _ _ ?s1 Table) = _ =>
    destruct (showView_frame s1 Table) as (Hd & _) end.
  now rewrite Hd.
Qed.

(** C6: a load whose fetch is rejected, or whose body does not parse,
    with no other event between its start and its failure: the document,
    the cache and the other suspended calls are as before, the load
    button is enabled again and the table view holds the failure
    message, but every view, the table view with it, is set to
    [display: none]. *)
Theorem failed_load_message_hidden (s : explorer) :
  let failed r := step (step s CallLoadData) (Settle (List.length (suspended s)) r) in
  (data (failed FetchRejected) = data s
   /\ cache (failed FetchRejected) = cache s
   /\ suspended (failed FetchRejected) = suspended s
   /\ load_disabled (elements (failed FetchRejected)) = Some false
   /\ view_text (elements (failed FetchRejected)) Table = Some failure_message
   /\ forall f, view_display (elements (failed FetchRejected)) f = Some DisplayNone)
  /\ (data (failed JsonRejected) = data s
      /\ cache (failed JsonRejected) = cache s
      /\ suspended (failed JsonRejected) = suspended s
      /\ load_disabled (elements (failed JsonRejected)) = Some false
      /\ view_text (elements (failed JsonRejected)) Table = Some failure_message
      /\ forall f, view_display (elements (failed JsonRejected)) f = Some DisplayNone).
Proof.
  intros failed. unfold failed.
  cbn [JSONLDExplorer.step].
  assert (E : suspended (loadData s) = (suspended s ++ [InLoadData])%list) by reflexivity.
  rewrite !E, !nth_error_app_last, !remove_nth_app_last.
  repeat split.
Qed.

(** C10: in a state the explorer can reach, a request for a format whose
    cache entry is the empty string derives the format again:
    [generateContent] is called, the request is suspended on its result,
    and nothing is rendered from the cache. An entry with a non-empty
    text is rendered, with no derivation, unless it is the N-Quads
    entry and holds [Loading]. *)
Theorem empty_cache_entry_recomputed (s : explorer) (f : format) :
  reachable s ->
  (cache s f = Some EmptyString ->
   exists w c,
     generateContent s f = Some (w, c)
     /\ suspended (showView s f) = (suspended s ++ [InShowView f w])%list
     /\ calls (showView s f) = (calls s ++ c)%list
     /\ cache (showView s f) = cache s
     /\ view_text (elements (showView s f)) = view_text (elements s))
  /\ (forall t,
        cache s f = Some t ->
        t <> EmptyString ->
        f <> Nquads \/ includes t "Loading" = false ->
        suspended (showView s f) = suspended s
        /\ calls (showView s f) = calls s
        /\ view_text (elements (showView s f)) f = Some t).
Proof.
  intros Hr. apply reachable_coherent in Hr. destruct Hr as (H1 & _ & H3).
  assert (Hpre : forall t, cache s f = Some t ->
                           truthy (data s) = true /\ format_eqb f Table = false).
  { intros t Ht. split.
    - destruct H3 as [H3|[H3 _]]; [assumption | rewrite H3 in Ht; discriminate].
    - destruct f; try reflexivity. rewrite H1 in Ht. discriminate. }
  split.
  - intros Hc. destruct (Hpre _ Hc) as [Et Ef].
    destruct (toTurtle_truthy decodeHtmlEntities JSON_stringify _ Et) as [turtle Htu].
    unfold JSONLDExplorer.showView, JSONLDExplorer.generateContent.
    rewrite Et. cbn [negb data cache with_elements with_currentFormat].
    rewrite Htu.
    destruct f; try discriminate Ef; cbn [format_eqb]; rewrite Hc;
      cbn [falsy_text String.eqb].
    + eexists. eexists. repeat split.
    + destruct (toRDF rdflib Rdfxml turtle) as [t c]. eexists. eexists. repeat split.
    + destruct (toRDF rdflib Ntriples turtle) as [t c]. eexists. eexists. repeat split.
    + destruct (toNQuads jsonld_loaded (data s)) as [w c]. eexists. eexists. repeat split.
  - intros t Hc Hne Hl. destruct (Hpre _ Hc) as [Et Ef].
    unfold JSONLDExplorer.showView.
    rewrite Et, Ef. cbn [negb data cache with_elements with_currentFormat].
    rewrite Hc. cbn [falsy_text].
    apply String.eqb_neq in Hne. rewrite Hne.
    unfold JSONLDExplorer.render_and_show, JSONLDExplorer.renderContent.
    assert (E : format_eqb f Nquads && includes t "Loading" = false).
    { destruct Hl as [Hl| ->]; [destruct f; try reflexivity; congruence|].
      apply andb_false_r. }
    cbn [cache with_elements with_currentFormat].
    destruct (format_eqb f Nquads) eqn:En.
    + destruct f; try discriminate. rewrite Hc, String.eqb_refl.
      cbn [andb] in *. rewrite E. cbn. repeat split.
    + cbn. repeat split. unfold assign. now destruct f.
Qed.

End ControllerProperties.

Section JsonldLoaded.

Variable decodeHtmlEntities : string -> string.
Variable JSON_stringify : value -> string.
Variable renderValue : value -> string.
Variable rdflib : option (string -> option string -> string + string).

Local Abbreviation showView :=
  (showView decodeHtmlEntities JSON_stringify rdflib true).
Local Abbreviation step :=
  (step decodeHtmlEntities JSON_stringify renderValue rdflib true).
Local Abbreviation run :=
  (run decodeHtmlEntities JSON_stringify renderValue rdflib true).

Lemma showView_nquads_uncached (s : explorer) :
  truthy (data s) = true ->
  falsy_text (cache s Nquads) = true ->
  calls (showView s Nquads) = (calls s ++ [CallJsonld (data s)])%list
  /\ suspended (showView s Nquads) = (suspended s ++ [InShowView Nquads OnJsonld])%list
  /\ cache (showView s Nquads) = cache s
  /\ data (showView s Nquads) = data s.
Proof.
  intros Et Hc.
  destruct (toTurtle_truthy decodeHtmlEntities JSON_stringify _ Et) as [turtle Htu].
  unfold JSONLDExplorer.showView, generateContent.
  rewrite Et. cbn [negb format_eqb data cache with_elements with_currentFormat].
  rewrite Hc, Htu. cbn. repeat split.
Qed.

(** C4: on the schedule that requests N-Quads, requests Turtle while the
    converter runs and lets the converter resolve last, the resolved
    text is in the cache entry of N-Quads; the selected format is Turtle
    and the Turtle view shows the Turtle text; and the N-Quads view holds
    the resolved text and is set to [display: block] as well. *)
Theorem stale_nquads_becomes_visible :
  let s := run constructed stale_nquads_schedule in
  currentFormat s = Turtle
  /\ cache s Nquads = Some sample_nquads
  /\ view_text (elements s) Turtle
     = toTurtle decodeHtmlEntities JSON_stringify person_with_friends
  /\ view_display (elements s) Turtle = Some DisplayBlock
  /\ view_text (elements s) Nquads = Some sample_nquads
  /\ view_display (elements s) Nquads = Some DisplayBlock
  /\ suspended s = [].
Proof.
  repeat split.
Qed.

(** C7 (amended): while a document is there and the cache has no text for
    N-Quads, a request for N-Quads calls the converter and records
    nothing in the cache, so each of [n] requests made before any
    completion calls the converter again: [n] calls, [n] suspended
    requests. *)
Theorem repeated_request_reissues (n : nat) (s : explorer) :
  truthy (data s) = true ->
  falsy_text (cache s Nquads) = true ->
  let s' := run s (repeat (CallShowView Nquads) n) in
  calls s' = (calls s ++ repeat (CallJsonld (data s)) n)%list
  /\ suspended s' = (suspended s ++ repeat (InShowView Nquads OnJsonld) n)%list
  /\ cache s' = cache s
  /\ data s' = data s.
Proof.
  revert s. induction n as [|n IH]; intros s Et Hc.
  - cbn. now rewrite !app_nil_r.
  - destruct (showView_nquads_uncached s Et Hc) as (K1 & K2 & K3 & K4).
    cbn [repeat]. unfold JSONLDExplorer.run. cbn [fold_left JSONLDExplorer.step].
    fold (run (showView s Nquads) (repeat (CallShowView Nquads) n)).
    destruct (IH (showView s Nquads)) as (J1 & J2 & J3 & J4).
    + now rewrite K4.
    + now rewrite K3.
    + rewrite J1, J2, J3, J4, K1, K2, K3, K4.
      now rewrite <- !app_assoc.
Qed.

End JsonldLoaded.

Lemma normalize_semantic_identity_witness :
  truthy (isJSONLD person_with_friends) = true
  /\ normalize person_with_friends = Some person_with_friends.
Proof.
  split; [reflexivity|].
  exact (proj1 (normalize_semantic_identity sample_decode sample_stringify
                  sample_renderValue None true person_with_friends constructed
                  eq_refl)).
Defined.

Lemma empty_cache_entry_recomputed_witness :
  let s0 := run sample_decode sample_stringify sample_renderValue None true
              constructed empty_nquads_schedule in
  cache s0 Nquads = Some EmptyString
  /\ exists w c,
       generateContent sample_decode sample_stringify None true s0 Nquads = Some (w, c)
       /\ suspended (showView sample_decode sample_stringify None true s0 Nquads)
          = (suspended s0 ++ [InShowView Nquads w])%list
       /\ calls (showView sample_decode sample_stringify None true s0 Nquads)
          = (calls s0 ++ c)%list
       /\ cache (showView sample_decode sample_stringify None true s0 Nquads) = cache s0
       /\ view_text (elements (showView sample_decode sample_stringify None true s0 Nquads))
          = view_text (elements s0).
Proof.
  split; [reflexivity|].
  exact (proj1 (empty_cache_entry_recomputed sample_decode sample_stringify
                  sample_renderValue None true
                  (run sample_decode sample_stringify sample_renderValue None true
                     constructed empty_nquads_schedule)
                  Nquads
                  (ex_intro _ empty_nquads_schedule eq_refl))
               eq_refl).
Defined.

Lemma repeated_request_reissues_witness :
  let s1 := run sample_decode sample_stringify sample_renderValue None true
              constructed loaded_schedule in
  truthy (data s1) = true
  /\ falsy_text (cache s1 Nquads) = true
  /\ calls (run sample_decode sample_stringify sample_renderValue None true s1
              (repeat (CallShowView Nquads) 3))
     = repeat (CallJsonld person_with_friends) 3.
Proof.
  split; [reflexivity|]. split; [reflexivity|].
  exact (proj1 (repeated_request_reissues sample_decode sample_stringify
                  sample_renderValue None 3
                  (run sample_decode sample_stringify sample_renderValue None true
                     constructed loaded_schedule)
                  eq_refl eq_refl)).
Defined.

(** C7, as worded, fails on the schedule that requests N-Quads twice:
    after the first request one derivation is in flight and the cache
    has no entry for it; the second request calls the converter again. *)
Lemma repeated_request_counterexample :
  (forall decode stringify renderValue rdflib,
     let s1 := run decode stringify renderValue rdflib true
                 constructed first_nquads_schedule in
     suspended s1 = [InShowView Nquads OnJsonld]
     /\ cache s1 Nquads = None
     /\ calls s1 = [CallJsonld person_with_friends])
  /\ (forall decode stringify renderValue rdflib,
        let s2 := run decode stringify renderValue rdflib true
                    constructed repeated_nquads_schedule in
        suspended s2 = [InShowView Nquads OnJsonld; InShowView Nquads OnJsonld]
        /\ calls s2 = [CallJsonld person_with_friends; CallJsonld person_with_friends]).
Proof.
  split; intros; repeat split.
Qed.

(** ** Objects built from their entries *)

Lemma keys_app (a b : entries) : keys (a ++ b)%list = (keys a ++ keys b)%list.
Proof.
  unfold keys. apply map_app.
Qed.

Lemma lookup_app_none (k : string) (a b : entries) :
  lookup k (a ++ b)%list = None <-> lookup k a = None /\ lookup k b = None.
Proof.
  rewrite !lookup_none_iff, keys_app, in_app_iff. tauto.
Qed.

Lemma distinct_cons (k : string) (l : list string) :
  distinct (k :: l) = true <-> ~ In k l /\ distinct l = true.
Proof.
  rewrite !distinct_NoDup. split.
  - intros H. inversion H; subst. now split.
  - intros [H1 H2]. now constructor.
Qed.

(** Inserting an index above every index of [d], in front of a list that
    starts with a name or is empty, puts it between the two. *)
Lemma insert_index_between (n : N) (k : string) (v : value) (d t : entries) :
  Forall (fun e => exists m, array_index (fst e) = Some m /\ (m < n)%N) d ->
  match t with
  | [] => True
  | (k0, _) :: _ => array_index k0 = None
  end ->
  insert_index n k v (d ++ t)%list = (d ++ (k, v) :: t)%list.
Proof.
  intros Hd Ht.
  induction Hd as [|[k1 v1] d (m & Hm & Hlt) Hd IH]; cbn [app].
  - destruct t as [|[k0 v0] t]; [reflexivity|]. cbn [insert_index]. now rewrite Ht.
  - cbn [insert_index]. cbn [fst] in Hm. rewrite Hm.
    assert ((n <? m)%N = false) as -> by (apply N.ltb_ge; lia).
    now rewrite IH.
Qed.

Lemma ascending_middle (lo : option N) (d : entries) (k : string) (v : value)
    (rest : entries) :
  ascending_from lo (d ++ (k, v) :: rest)%list = true ->
  exists n, array_index k = Some n
            /\ above lo n = true
            /\ Forall (fun e => exists m, array_index (fst e) = Some m /\ (m < n)%N) d.
Proof.
  revert lo. induction d as [|[k1 v1] d IH]; intros lo; cbn [app ascending_from].
  - destruct (array_index k) as [n|]; [|discriminate].
    intros H. apply andb_true_iff in H. exists n. now repeat split.
  - destruct (array_index k1) as [m|] eqn:Em; [|discriminate].
    intros H. apply andb_true_iff in H. destruct H as [Hlo H].
    destruct (IH (Some m) H) as (n & Hk & Hm & Hd). exists n.
    cbn [above] in Hm. apply N.ltb_lt in Hm. repeat split; [assumption | |].
    + destruct lo as [l|]; [|reflexivity]. cbn [above] in *.
      apply N.ltb_lt in Hlo. apply N.ltb_lt. lia.
    + constructor; [exists m; now split | assumption].
Qed.

Lemma define_all_indices (fi d t : entries) (lo : option N) :
  ascending_from lo (d ++ fi)%list = true ->
  match t with
  | [] => True
  | (k0, _) :: _ => array_index k0 = None
  end ->
  (forall k, In k (keys fi) -> lookup k t = None) ->
  define_all (d ++ t)%list fi = (d ++ fi ++ t)%list.
Proof.
  unfold define_all. revert d.
  induction fi as [|[k v] fi IH]; intros d Ha Ht Hk; [reflexivity|].
  destruct (ascending_middle lo d k v fi Ha) as (n & En & _ & Hd).
  cbn [fold_left].
  assert (E : define_property (d ++ t)%list k v = ((d ++ [(k, v)]) ++ t)%list).
  { unfold define_property.
    assert (lookup k (d ++ t)%list = None) as ->.
    { apply lookup_app_none. split; [|apply Hk; now left].
      apply lookup_none_iff. intros Hin.
      apply in_map_iff in Hin. destruct Hin as ([k1 v1] & E1 & Hin).
      cbn [fst] in E1. subst k1.
      rewrite Forall_forall in Hd. destruct (Hd _ Hin) as (m & Hm & Hlt).
      cbn [fst] in Hm. rewrite En in Hm. injection Hm as <-. lia. }
    rewrite En, (insert_index_between n k v d t Hd Ht).
    now rewrite <- app_assoc. }
  rewrite E, IH.
  - now rewrite <- !app_assoc.
  - now rewrite <- app_assoc.
  - assumption.
  - intros k' Hin. apply Hk. now right.
Qed.

Lemma define_all_named (fn acc : entries) :
  all_named fn = true ->
  distinct (keys fn) = true ->
  (forall k, In k (keys fn) -> lookup k acc = None) ->
  define_all acc fn = (acc ++ fn)%list.
Proof.
  unfold define_all. revert acc.
  induction fn as [|[k v] fn IH]; intros acc Hn Hd Hk; cbn [fold_left].
  - now rewrite app_nil_r.
  - cbn [all_named forallb] in Hn. apply andb_true_iff in Hn. destruct Hn as [Hi Hn].
    cbn [keys map fst] in Hd. apply distinct_cons in Hd. destruct Hd as [Hnk Hd].
    assert (E : define_property acc k v = (acc ++ [(k, v)])%list).
    { unfold define_property. rewrite (Hk k) by now left.
      unfold is_index in Hi. now destruct (array_index k). }
    rewrite E, IH; [now rewrite <- app_assoc | assumption | assumption |].
    intros k' Hin. apply lookup_app_none. split; [apply Hk; now right|].
    cbn [lookup]. destruct (String.eqb_spec k' k) as [->|]; [contradiction | reflexivity].
Qed.

Lemma own_ordered_split (lo : option N) (o : entries) :
  own_ordered_from lo o = true ->
  exists fi fn, o = (fi ++ fn)%list
                /\ ascending_from lo fi = true
                /\ all_named fn = true.
Proof.
  revert lo. induction o as [|[k v] o IH]; intros lo; cbn [own_ordered_from].
  - intros _. exists [], []. now repeat split.
  - destruct (array_index k) as [n|] eqn:En.
    + intros H. apply andb_true_iff in H. destruct H as [Hlo H].
      destruct (IH _ H) as (fi & fn & -> & Ha & Hn).
      exists ((k, v) :: fi), fn. repeat split; [|assumption].
      cbn [ascending_from]. now rewrite En, Hlo, Ha.
    + intros H. exists [], ((k, v) :: o). repeat split.
      cbn [all_named forallb]. unfold is_index. now rewrite En.
Qed.

Lemma ascending_all_index (lo : option N) (fi : entries) :
  ascending_from lo fi = true ->
  forallb (fun e => is_index (fst e)) fi = true.
Proof.
  revert lo. induction fi as [|[k v] fi IH]; intros lo; [reflexivity|].
  cbn [forallb ascending_from fst]. unfold is_index at 1.
  destruct (array_index k); [|discriminate].
  intros H. apply andb_true_iff in H. destruct H as [_ H]. now rewrite (IH _ H).
Qed.

Lemma filter_none {A : Type} (p : A -> bool) (l : list A) :
  forallb (fun x => negb (p x)) l = true -> filter p l = [].
Proof.
  induction l as [|x l IH]; cbn; [reflexivity|].
  destruct (p x); cbn; [discriminate | assumption].
Qed.

Lemma all_named_spec (fn : entries) :
  all_named fn = forallb (fun e => negb (is_index (fst e))) fn.
Proof.
  unfold all_named. induction fn as [|[k v] fn IH]; cbn; [reflexivity|].
  now rewrite IH.
Qed.

Lemma index_key_not_marker (k : string) :
  is_index k = true -> includes_key ["@context"; "@type"] k = false.
Proof.
  unfold includes_key. cbn [existsb].
  destruct (String.eqb_spec k "@context") as [->|]; [discriminate|].
  destruct (String.eqb_spec k "@type") as [->|]; [discriminate | reflexivity].
Qed.

Lemma keys_filter (p : string -> bool) (o : entries) :
  keys (filter (fun e => p (fst e)) o) = filter p (keys o).
Proof.
  unfold keys.
  induction o as [|[k v] o IH]; [reflexivity|].
  cbn [filter map fst]. destruct (p k); cbn [map fst]; now rewrite IH.
Qed.

Lemma all_named_filter (p : string * value -> bool) (o : entries) :
  all_named o = true -> all_named (filter p o) = true.
Proof.
  unfold all_named. rewrite !forallb_forall.
  intros H x Hx. apply H. apply filter_In in Hx. tauto.
Qed.

Lemma all_named_own_ordered (lo : option N) (o : entries) :
  all_named o = true -> own_ordered_from lo o = true.
Proof.
  destruct o as [|[k v] o]; [reflexivity|].
  cbn [all_named forallb own_ordered_from]. unfold is_index.
  destruct (array_index k); [discriminate|]. intros H. exact H.
Qed.

Lemma own_ordered_filter (o : entries) :
  own_ordered o -> own_ordered (filter non_marker o).
Proof.
  intros [Hd Ho]. split.
  - apply distinct_NoDup.
    replace (filter non_marker o)
      with (filter (fun e => negb (includes_key ["@context"; "@type"] (fst e))) o)
      by (apply filter_ext; now intros [k v]).
    rewrite (keys_filter (fun k => negb (includes_key ["@context"; "@type"] k))).
    apply NoDup_filter. now apply distinct_NoDup.
  - clear Hd. revert Ho. generalize (@None N) as lo.
    induction o as [|[k v] o IH]; intros lo; [reflexivity|].
    cbn [own_ordered_from filter non_marker].
    destruct (array_index k) as [n|] eqn:En.
    + rewrite index_key_not_marker by (unfold is_index; now rewrite En).
      cbn [negb own_ordered_from]. rewrite En.
      intros H. apply andb_true_iff in H. destruct H as [Hlo H].
      now rewrite Hlo, (IH _ H).
    + intros H. destruct (negb _).
      * cbn [own_ordered_from]. rewrite En. now apply all_named_filter.
      * apply all_named_own_ordered. now apply all_named_filter.
Qed.

(** Building an object from entries that are in own-property order gives
    those entries back. *)
Lemma define_all_own_ordered (o : entries) :
  own_ordered o -> define_all [] o = o.
Proof.
  intros [Hd Ho].
  destruct (own_ordered_split None o Ho) as (fi & fn & -> & Ha & Hn).
  unfold define_all. rewrite fold_left_app. fold (define_all [] fi).
  fold (define_all (define_all [] fi) fn).
  pose proof (define_all_indices fi [] [] None Ha I (fun _ _ => eq_refl)) as E.
  cbn [app] in E. rewrite app_nil_r in E. rewrite E.
  rewrite keys_app in Hd. apply distinct_NoDup in Hd.
  apply define_all_named; [assumption | |].
  - apply distinct_NoDup. now apply NoDup_app_remove_l in Hd.
  - intros k Hk. apply lookup_none_iff. intros Hin.
    revert k Hin Hk. induction (keys fi) as [|a l IHl]; intros k Hin Hk; [easy|].
    cbn [app] in Hd. inversion Hd as [|? ? Ha' Hl]; subst.
    destruct Hin as [<-|Hin].
    + apply Ha'. apply in_app_iff. now right.
    + now apply (IHl Hl k).
Qed.

Lemma NoDup_app_disjoint {A : Type} (a b : list A) (x : A) :
  NoDup (a ++ b) -> In x a -> ~ In x b.
Proof.
  induction a as [|y a IH]; cbn [app]; [easy|].
  intros H [<-|Hin] Hb.
  - inversion H as [|? ? Hy _]; subst. apply Hy. apply in_app_iff. now right.
  - inversion H as [|? ? _ Ha]; subst. now apply (IH Ha Hin).
Qed.

Lemma kept_not_marker (o : entries) (k : string) :
  In k (keys (filter non_marker o)) -> includes_key ["@context"; "@type"] k = false.
Proof.
  intros Hin. apply in_map_iff in Hin. destruct Hin as ([k1 v1] & E & Hin).
  cbn [fst] in E. subst k1. apply filter_In in Hin. destruct Hin as [_ Hm].
  cbn [non_marker] in Hm. now apply negb_true_iff in Hm.
Qed.

Lemma not_marker_lookup (k : string) :
  includes_key ["@context"; "@type"] k = false -> lookup k generic_markers = None.
Proof.
  unfold includes_key, generic_markers. cbn [existsb lookup].
  destruct (String.eqb k "@context"); [discriminate|].
  now destruct (String.eqb k "@type").
Qed.

Lemma lookup_define_all_other (props o : entries) (k : string) :
  ~ In k (keys props) -> lookup k (define_all o props) = lookup k o.
Proof.
  unfold define_all. revert o.
  induction props as [|[k1 v1] props IH]; intros o H; [reflexivity|].
  cbn [fold_left]. rewrite IH by (intros Hin; apply H; now right).
  rewrite lookup_define_property.
  destruct (String.eqb_spec k k1) as [->|]; [|reflexivity].
  exfalso. apply H. now left.
Qed.

Lemma lookup_filter_key (p : string -> bool) (k : string) (o : entries) :
  lookup k (filter (fun e => p (fst e)) o) = if p k then lookup k o else None.
Proof.
  induction o as [|[k1 v1] o IH]; [now destruct (p k)|].
  cbn [filter fst lookup].
  destruct (p k1) eqn:E1; cbn [lookup]; rewrite IH;
    destruct (String.eqb_spec k k1) as [->|]; try reflexivity.
  - now rewrite E1.
  - now rewrite E1.
Qed.

Lemma filter_non_marker_eq (o : entries) :
  filter non_marker o
  = filter (fun e => negb (includes_key ["@context"; "@type"] (fst e))) o.
Proof.
  apply filter_ext. now intros [k v].
Qed.

(** The markers of a wrapped tree, whatever entries [data] has. *)
Lemma wrapGenericData_markers (d doc : value) :
  wrapGenericData d = Some doc ->
  exists w, doc = VObj w
            /\ lookup "@context" w = Some generic_context
            /\ lookup "@type" w = Some (VStr "Resource").
Proof.
  unfold wrapGenericData. destruct (Object_entries d) as [es|]; [|discriminate].
  intros [= <-]. eexists. split; [reflexivity|].
  change (filter _ es) with (filter non_marker es).
  assert (H : forall k, includes_key ["@context"; "@type"] k = true ->
                        ~ In k (keys (Object_fromEntries (filter non_marker es)))).
  { intros k Hk Hin. apply lookup_none_iff in Hin; [easy|].
    unfold Object_fromEntries. rewrite lookup_define_all_other; [reflexivity|].
    intros Hin'. apply kept_not_marker in Hin'. congruence. }
  split; rewrite lookup_define_all_other by (apply H; reflexivity); reflexivity.
Qed.

(** The layout of a wrapped tree whose entries are in own-property
    order. *)
Lemma wrapGenericData_own_ordered (raw : entries) :
  own_ordered raw ->
  let kept := filter non_marker raw in
  let w := (filter (fun e => is_index (fst e)) kept
            ++ generic_markers
            ++ filter (fun e => negb (is_index (fst e))) kept)%list in
  wrapGenericData (VObj raw) = Some (VObj w)
  /\ filter non_marker w = kept.
Proof.
  intros Hraw kept w.
  pose proof (own_ordered_filter raw Hraw) as Hkept. fold kept in Hkept.
  pose proof Hkept as [Hd Ho].
  destruct (own_ordered_split None kept Ho) as (fi & fn & E & Ha & Hn).
  assert (Hw : w = (fi ++ generic_markers ++ fn)%list).
  { unfold w. rewrite E, !filter_app.
    rewrite (forallb_filter_id _ fi (ascending_all_index _ _ Ha)).
    rewrite (filter_none (fun e => is_index (fst e)) fn)
      by (now rewrite <- all_named_spec).
    rewrite (filter_none (fun e => negb (is_index (fst e))) fi).
    - rewrite (forallb_filter_id _ fn) by (now rewrite <- all_named_spec).
      now rewrite app_nil_r.
    - pose proof (ascending_all_index _ _ Ha) as Hi.
      rewrite forallb_forall in Hi. apply forallb_forall.
      intros x Hx. now rewrite (Hi x Hx). }
  assert (Hk : forall k, In k (keys kept) -> includes_key ["@context"; "@type"] k = false)
    by (intros k; apply kept_not_marker).
  split.
  - unfold wrapGenericData. cbn [Object_entries].
    change (filter _ raw) with kept.
    unfold Object_fromEntries. rewrite (define_all_own_ordered kept Hkept).
    change (define_all [] [("@context", generic_context); ("@type", VStr "Resource")])
      with generic_markers.
    rewrite Hw, E. unfold define_all. rewrite fold_left_app.
    fold (define_all generic_markers fi).
    pose proof (define_all_indices fi [] generic_markers None Ha eq_refl) as Ei.
    cbn [app] in Ei. rewrite Ei.
    + fold (define_all (fi ++ generic_markers)%list fn).
      rewrite define_all_named; [now rewrite <- app_assoc | assumption | |].
      * rewrite E, keys_app in Hd. apply distinct_NoDup in Hd.
        apply distinct_NoDup. now apply NoDup_app_remove_l in Hd.
      * intros k Hin. apply lookup_app_none. split.
        -- apply lookup_none_iff. intros Hfi.
           rewrite E, keys_app in Hd. apply distinct_NoDup in Hd.
           now apply (NoDup_app_disjoint _ _ k Hd Hfi).
        -- apply not_marker_lookup, Hk. rewrite E, keys_app. apply in_app_iff. now right.
    + intros k Hin. apply not_marker_lookup, Hk.
      rewrite E, keys_app. apply in_app_iff. now left.
  - rewrite Hw, !filter_app.
    assert (Hall : forallb non_marker kept = true) by apply forallb_filter.
    rewrite E, forallb_app in Hall. apply andb_true_iff in Hall.
    destruct Hall as [H1 H2].
    rewrite (forallb_filter_id _ fi H1), (forallb_filter_id _ fn H2).
    now rewrite E.
Qed.

(** X1: on the entries of an object, [wrapGenericData] returns the
    array-index entries that are kept, then the two marker entries, then
    the other entries that are kept, each group in the order of [raw];
    so the entries of the result that are not markers are those of
    [raw], in the order of [raw], and the result is in own-property
    order again. *)
Theorem wrapGenericData_layout (raw : entries) :
  own_ordered raw ->
  let kept := filter non_marker raw in
  let w := (filter (fun e => is_index (fst e)) kept
            ++ generic_markers
            ++ filter (fun e => negb (is_index (fst e))) kept)%list in
  wrapGenericData (VObj raw) = Some (VObj w)
  /\ filter non_marker w = kept
  /\ own_ordered w.
Proof.
  intros Hraw kept w.
  destruct (wrapGenericData_own_ordered raw Hraw) as [Hw Hf].
  fold kept in Hw, Hf. fold w in Hw, Hf.
  repeat split; try assumption.
  - assert (E : wrapGenericData (VObj raw) = Some (VObj w)) by exact Hw.
    unfold wrapGenericData in E. cbn [Object_entries] in E.
    injection E as <-. apply wf_define_all. reflexivity.
  - unfold w.
    pose proof (own_ordered_filter raw Hraw) as [_ Ho]. fold kept in Ho.
    destruct (own_ordered_split None kept Ho) as (fi & fn & E & Ha & Hn).
    rewrite E, !filter_app.
    rewrite (forallb_filter_id _ fi (ascending_all_index _ _ Ha)).
    rewrite (filter_none (fun e => is_index (fst e)) fn)
      by (now rewrite <- all_named_spec).
    rewrite (filter_none (fun e => negb (is_index (fst e))) fi).
    + rewrite (forallb_filter_id _ fn) by (now rewrite <- all_named_spec).
      rewrite app_nil_r. cbn [app].
      clear E Ho. revert Ha. generalize (@None N) as lo.
      induction fi as [|[k v] fi IH]; intros lo Ha.
      * cbn [app]. exact Hn.
      * cbn [app own_ordered_from ascending_from] in *.
        destruct (array_index k); [|discriminate].
        apply andb_true_iff in Ha. destruct Ha as [Hlo Ha].
        now rewrite Hlo, (IH _ Ha).
    + pose proof (ascending_all_index _ _ Ha) as Hi.
      rewrite forallb_forall in Hi. apply forallb_forall.
      intros x Hx. now rewrite (Hi x Hx).
Qed.

Lemma wrapGenericData_layout_witness :
  own_ordered seventh
  /\ wrapGenericData (VObj seventh)
     = Some (VObj [("7", VNum 1);
                   ("@context", VObj [("schema", VStr "https://schema.org/")]);
                   ("@type", VStr "Resource");
                   ("name", VStr "Alice");
                   ("homepage", VStr "https://alice.example")]).
Proof.
  split; [split; reflexivity|].
  exact (proj1 (wrapGenericData_layout seventh (conj eq_refl eq_refl))).
Defined.

(** X2: on the entries of an object, whatever they hold under the two
    marker keys, [wrapGenericData] binds [@context] to the binding of
    [schema] and [@type] to [Resource], and gives every other key the
    value it has in [raw], or none when [raw] has none. *)
Theorem wrapGenericData_overrides_markers (raw : entries) :
  wf_object raw ->
  exists w,
    wrapGenericData (VObj raw) = Some (VObj w)
    /\ wf_object w
    /\ lookup "@context" w = Some (VObj [("schema", VStr "https://schema.org/")])
    /\ lookup "@type" w = Some (VStr "Resource")
    /\ forall k, k <> "@context" -> k <> "@type" -> lookup k w = lookup k raw.
Proof.
  intros Hwf.
  destruct (wrapGenericData (VObj raw)) as [doc|] eqn:E; [|discriminate E].
  destruct (wrapGenericData_markers _ _ E) as (w & -> & Hc & Ht).
  exists w. split; [reflexivity|].
  unfold wrapGenericData in E. cbn [Object_entries] in E. injection E as E.
  change (filter _ raw) with (filter non_marker raw) in E.
  change (define_all [] [("@context", generic_context); ("@type", VStr "Resource")])
    with generic_markers in E.
  repeat split; try assumption.
  - rewrite <- E. apply wf_define_all. reflexivity.
  - intros k Hkc Hkt. rewrite <- E.
    assert (Hf : wf_object (filter non_marker raw)).
    { unfold wf_object. apply distinct_NoDup.
      rewrite filter_non_marker_eq,
        (keys_filter (fun k => negb (includes_key ["@context"; "@type"] k))).
      apply NoDup_filter. now apply distinct_NoDup. }
    rewrite lookup_define_all by (apply wf_define_all; reflexivity).
    unfold Object_fromEntries. rewrite (lookup_define_all _ [] k Hf).
    rewrite filter_non_marker_eq,
      (lookup_filter_key (fun k => negb (includes_key ["@context"; "@type"] k))).
    assert (Hinc : includes_key ["@context"; "@type"] k = false).
    { unfold includes_key. cbn [existsb].
      apply String.eqb_neq in Hkc, Hkt. now rewrite Hkc, Hkt. }
    rewrite Hinc. cbn [negb lookup].
    destruct (lookup k raw); [reflexivity|].
    now apply not_marker_lookup.
Qed.

Lemma wrapGenericData_overrides_markers_witness :
  exists w,
    wrapGenericData (VObj seventh) = Some (VObj w)
    /\ lookup "@type" w = Some (VStr "Resource")
    /\ lookup "name" w = Some (VStr "Alice").
Proof.
  destruct (wrapGenericData_overrides_markers seventh eq_refl)
    as (w & Hw & _ & _ & Ht & Hk).
  exists w. repeat split; [exact Hw | exact Ht |].
  rewrite Hk; [reflexivity | discriminate | discriminate].
Defined.

Lemma normalize_fails_iff (d : value) :
  normalize d = None <-> d = VNull \/ d = VUndefined.
Proof.
  unfold normalize, wrapGenericData.
  destruct d as [| | | | |items|o]; cbn;
    try (split; [discriminate | intros [H|H]; discriminate H]);
    try (split; [now right | reflexivity]); try (split; [now left | reflexivity]).
  destruct (truthy (isJSONLD (VObj o)));
    (split; [discriminate | intros [H|H]; discriminate H]).
Qed.

Lemma normalize_result (d doc : value) :
  normalize d = Some doc ->
  (exists o, doc = VObj o)
  /\ truthy (isJSONLD doc) = true
  /\ normalize doc = Some doc.
Proof.
  intros H.
  assert (S : (exists o, doc = VObj o) /\ truthy (isJSONLD doc) = true).
  { unfold normalize in H. destruct (truthy (isJSONLD d)) eqn:E.
    - injection H as <-. split; [now apply semantic_is_mapping | assumption].
    - destruct (wrapGenericData_markers _ _ H) as (w & -> & Hc & _).
      split; [now eexists|]. unfold isJSONLD, get_opt, get. now rewrite Hc. }
  destruct S as [So St]. repeat split; try assumption.
  unfold normalize. now rewrite St.
Qed.

(** X3: [normalize] fails on [null] and [undefined] and on nothing else;
    what it returns is a mapping on which [isJSONLD] is truthy, and
    [normalize] returns that mapping as it is. *)
Theorem normalize_semantic (d : value) :
  (normalize d = None <-> d = VNull \/ d = VUndefined)
  /\ forall doc, normalize d = Some doc ->
       (exists o, doc = VObj o)
       /\ truthy (isJSONLD doc) = true
       /\ normalize doc = Some doc.
Proof.
  split; [apply normalize_fails_iff | apply normalize_result].
Qed.

Lemma normalize_semantic_witness :
  exists doc, normalize (VArr [VNum 5; VNum 6]) = Some doc
              /\ truthy (isJSONLD doc) = true
              /\ normalize doc = Some doc.
Proof.
  eexists. split; [reflexivity|].
  exact (proj2 (proj2 (normalize_semantic (VArr [VNum 5; VNum 6])) _ eq_refl)).
Defined.

Section PlainTree.

Variable decodeHtmlEntities : string -> string.
Variable JSON_stringify : value -> string.

Local Abbreviation toTurtle := (toTurtle decodeHtmlEntities JSON_stringify).
Local Abbreviation property_lines := (property_lines decodeHtmlEntities JSON_stringify).

(** X4: a mapping on which [isJSONLD] is not truthy is normalized to a
    document whose Turtle text is the prefix declarations, the subject
    line [<> a schema:Resource ;] and the property lines of the mapping's
    own entries other than the markers, in the mapping's own order. *)
Theorem plain_tree_turtle (raw : entries) :
  own_ordered raw ->
  truthy (isJSONLD (VObj raw)) = false ->
  exists doc,
    normalize (VObj raw) = Some doc
    /\ toTurtle doc
       = Some (prefix_declarations ++ "<> a schema:Resource ;" ++ nl
                 ++ join (" ;" ++ nl) (property_lines raw) ++ " ." ++ nl).
Proof.
  intros Ho Hs.
  destruct (wrapGenericData_own_ordered raw Ho) as [Hw Hf].
  eexists. split.
  - unfold normalize. rewrite Hs. exact Hw.
  - destruct (wrapGenericData_markers _ _ Hw) as (w & E & _ & Ht).
    assert (P : property_lines w = property_lines raw).
    { injection E as E. unfold RDFConverter.property_lines.
      rewrite <- E. f_equal. exact Hf. }
    rewrite E, toTurtle_object, P. unfold get. now rewrite Ht.
Qed.

End PlainTree.

Lemma plain_tree_turtle_witness :
  exists doc,
    normalize (VObj seventh) = Some doc
    /\ toTurtle sample_decode sample_stringify doc
       = Some (prefix_declarations ++ "<> a schema:Resource ;" ++ nl
                 ++ "  schema:7 1 ;" ++ nl
                 ++ "  schema:name " ++ dq ++ "Alice" ++ dq ++ " ;" ++ nl
                 ++ "  schema:homepage <https://alice.example> ." ++ nl).
Proof.
  exact (plain_tree_turtle sample_decode sample_stringify seventh
           (conj eq_refl eq_refl) eq_refl).
Defined.

(** ** The controller, continued *)

Section ControllerFacts.

Variable decodeHtmlEntities : string -> string.
Variable JSON_stringify : value -> string.
Variable renderValue : value -> string.
Variable rdflib : option (string -> option string -> string + string).
Variable jsonld_loaded : bool.

Local Abbreviation generateContent :=
  (generateContent decodeHtmlEntities JSON_stringify rdflib jsonld_loaded).
Local Abbreviation showView :=
  (showView decodeHtmlEntities JSON_stringify rdflib jsonld_loaded).
Local Abbreviation step :=
  (step decodeHtmlEntities JSON_stringify renderValue rdflib jsonld_loaded).
Local Abbreviation run :=
  (run decodeHtmlEntities JSON_stringify renderValue rdflib jsonld_loaded).
Local Abbreviation reachable :=
  (reachable decodeHtmlEntities JSON_stringify renderValue rdflib jsonld_loaded).

Lemma step_idle (s : explorer) (e : event) :
  brings_no_tree e = true -> idle s -> idle (step s e).
Proof.
  intros He (Hd & Hc & Hk & Hs).
  destruct e as [f| |i r]; cbn [JSONLDExplorer.step].
  - unfold JSONLDExplorer.showView. now rewrite Hd.
  - unfold loadData, idle. cbn. repeat split; try assumption.
    apply Forall_app. split; [assumption | repeat constructor].
  - destruct (nth_error (suspended s) i) as [t|] eqn:En; [|now repeat split].
    assert (t = InLoadData) as ->
      by (rewrite Forall_forall in Hs; apply Hs; now apply nth_error_In in En).
    destruct r; try discriminate He; try (now repeat split);
      unfold loadData_catch, idle; cbn; repeat split; try assumption;
      now apply Forall_remove_nth.
Qed.

(** X5: as long as no fetched tree arrives, whatever is requested and
    whatever load fails, the explorer has no document, caches nothing,
    calls no converter, treats every format request as a no-op and
    offers no download. *)
Theorem no_document_no_effect (es : list event) :
  forallb brings_no_tree es = true ->
  let s := run constructed es in
  data s = VNull
  /\ (forall f, cache s f = None)
  /\ calls s = []
  /\ (forall f, showView s f = s)
  /\ download s = None.
Proof.
  intros Hes s.
  assert (H : idle s).
  { unfold s. clear s.
    assert (I0 : idle constructed)
      by (unfold idle; cbn; repeat split; constructor).
    revert Hes I0. generalize constructed as s0.
    induction es as [|e es IH]; intros s0 Hes I0; [exact I0|].
    cbn [forallb] in Hes. apply andb_true_iff in Hes. destruct Hes as [He Hes].
    apply (IH (step s0 e) Hes). now apply step_idle. }
  destruct H as (Hd & Hc & Hk & _). repeat split; try assumption.
  - intros f. unfold JSONLDExplorer.showView. now rewrite Hd.
  - unfold download. now rewrite Hc.
Qed.

(** X6: when the tree fetched by a suspended load arrives and is neither
    [null] nor [undefined], the normalized tree becomes the document, the
    cache is emptied, the table format is selected, the table view alone
    is displayed, the download button is hidden, the load button and the
    Turtle toggle are enabled, the other toggles are enabled when their
    library is loaded, and no converter is called. *)
Theorem successful_load_resets (s : explorer) (i : nat) (d : value) :
  nth_error (suspended s) i = Some InLoadData ->
  d <> VNull ->
  d <> VUndefined ->
  let s' := step s (Settle i (Fetched d)) in
  normalize d = Some (data s')
  /\ (forall f, cache s' f = None)
  /\ currentFormat s' = Table
  /\ (forall f, view_display (elements s') f
                = Some (if format_eqb f Table then DisplayBlock else DisplayNone))
  /\ download_display (elements s') = Some DisplayNone
  /\ load_disabled (elements s') = Some false
  /\ toggle_disabled (elements s') Turtle = Some false
  /\ toggle_disabled (elements s') Rdfxml = Some (negb (is_some rdflib))
  /\ toggle_disabled (elements s') Ntriples = Some (negb (is_some rdflib))
  /\ toggle_disabled (elements s') Nquads = Some (negb jsonld_loaded)
  /\ suspended s' = remove_nth i (suspended s)
  /\ calls s' = calls s
  /\ download s' = None.
Proof.
  intros Hn Hnull Hundef s'. unfold s'. clear s'.
  cbn [JSONLDExplorer.step]. rewrite Hn.
  unfold JSONLDExplorer.loadData_resume.
  destruct (normalize d) as [doc|] eqn:En.
  2:{ apply normalize_fails_iff in En. tauto. }
  pose proof (normalize_truthy _ _ En) as Ht.
  unfold renderTable.
  destruct (Object_entries d) as [es|] eqn:Ee; [|destruct d; try discriminate Ee; tauto].
  unfold JSONLDExplorer.showView. cbn [data with_cache with_data with_elements].
  rewrite Ht. cbn.
  repeat split; try (intros f; now destruct f); now destruct rdflib.
Qed.

(** X7: from a state with a document and no cached text for a format
    that is neither the table nor N-Quads, a request followed by its
    completion leaves the generated text in the cache entry and in the
    view of that format, selects the format, displays that view alone,
    shows the download button and leaves no call suspended; for Turtle
    the text is the Turtle text of the document. *)
Theorem request_completes_single_view (s : explorer) (f : format) :
  truthy (data s) = true ->
  falsy_text (cache s f) = true ->
  f <> Table ->
  f <> Nquads ->
  let s' := step (showView s f) (Settle (List.length (suspended s)) Resumed) in
  exists text c,
    generateContent s f = Some (Fulfilled text, c)
    /\ (f = Turtle -> toTurtle decodeHtmlEntities JSON_stringify (data s) = Some text)
    /\ cache s' f = Some text
    /\ view_text (elements s') f = Some text
    /\ (forall g, view_display (elements s') g
                  = Some (if format_eqb g f then DisplayBlock else DisplayNone))
    /\ currentFormat s' = f
    /\ download_display (elements s') = Some DisplayInlineBlock
    /\ suspended s' = suspended s
    /\ calls s' = (calls s ++ c)%list
    /\ data s' = data s.
Proof.
  intros Et Hc Hft Hfn s'. unfold s'. clear s'.
  destruct (toTurtle_truthy decodeHtmlEntities JSON_stringify _ Et) as [turtle Htu].
  unfold JSONLDExplorer.showView, JSONLDExplorer.generateContent.
  rewrite Et. cbn [negb data cache with_elements with_currentFormat].
  rewrite Htu.
  destruct f; try contradiction; cbn [format_eqb]; rewrite Hc.
  - eexists. eexists. split; [reflexivity|].
    cbn [JSONLDExplorer.step suspended with_calls with_suspended].
    rewrite nth_error_app_last, remove_nth_app_last. cbn.
    repeat split; try (intros g; now destruct g).
  - destruct (toRDF rdflib Rdfxml turtle) as [t c]. eexists. eexists.
    split; [reflexivity|].
    cbn [JSONLDExplorer.step suspended with_calls with_suspended].
    rewrite nth_error_app_last, remove_nth_app_last. cbn.
    repeat split; try (intros g; now destruct g); discriminate.
  - destruct (toRDF rdflib Ntriples turtle) as [t c]. eexists. eexists.
    split; [reflexivity|].
    cbn [JSONLDExplorer.step suspended with_calls with_suspended].
    rewrite nth_error_app_last, remove_nth_app_last. cbn.
    repeat split; try (intros g; now destruct g); discriminate.
Qed.

End ControllerFacts.

Section ConverterCalls.

Variable decodeHtmlEntities : string -> string.
Variable JSON_stringify : value -> string.
Variable renderValue : value -> string.
Variable rdflib : option (string -> option string -> string + string).
Variable jsonld_loaded : bool.

Local Abbreviation toRDF := (toRDF rdflib).
Local Abbreviation toNQuads := (toNQuads jsonld_loaded).
Local Abbreviation generateContent :=
  (generateContent decodeHtmlEntities JSON_stringify rdflib jsonld_loaded).
Local Abbreviation render_and_show := (render_and_show jsonld_loaded).
Local Abbreviation showView :=
  (showView decodeHtmlEntities JSON_stringify rdflib jsonld_loaded).
Local Abbreviation step :=
  (step decodeHtmlEntities JSON_stringify renderValue rdflib jsonld_loaded).
Local Abbreviation run :=
  (run decodeHtmlEntities JSON_stringify renderValue rdflib jsonld_loaded).
Local Abbreviation reachable :=
  (reachable decodeHtmlEntities JSON_stringify renderValue rdflib jsonld_loaded).
Local Abbreviation call_for :=
  (call_for (toTurtle decodeHtmlEntities JSON_stringify) (is_some rdflib) jsonld_loaded).

Lemma toRDF_calls (f : format) (turtle : string) (doc : value) :
  toTurtle decodeHtmlEntities JSON_stringify doc = Some turtle ->
  f = Rdfxml \/ f = Ntriples ->
  Forall (call_for doc) (snd (toRDF f turtle)).
Proof.
  intros Ht Hf. unfold JSONLDExplorer.toRDF.
  destruct rdflib; cbn [snd]; [|constructor].
  constructor; [|constructor]. cbn. repeat split; [assumption|].
  destruct Hf as [-> | ->]; [now left | now right].
Qed.

Lemma toNQuads_calls (d : value) : Forall (call_for d) (snd (toNQuads d)).
Proof.
  unfold JSONLDExplorer.toNQuads.
  destruct jsonld_loaded; cbn; repeat constructor.
Qed.

Lemma generateContent_calls (s : explorer) (f : format) (w : awaited) (c : list call) :
  generateContent s f = Some (w, c) -> Forall (call_for (data s)) c.
Proof.
  unfold JSONLDExplorer.generateContent.
  destruct (toTurtle decodeHtmlEntities JSON_stringify (data s)) as [turtle|] eqn:Ht;
    [|discriminate].
  destruct f.
  - intros [= <- <-]. constructor.
  - intros [= <- <-]. constructor.
  - pose proof (toRDF_calls Rdfxml turtle (data s) Ht (or_introl eq_refl)) as H.
    destruct (toRDF Rdfxml turtle). now intros [= <- <-].
  - pose proof (toRDF_calls Ntriples turtle (data s) Ht (or_intror eq_refl)) as H.
    destruct (toRDF Ntriples turtle). now intros [= <- <-].
  - pose proof (toNQuads_calls (data s)) as H.
    destruct (toNQuads (data s)). now intros [= <- <-].
Qed.

Lemma render_and_show_calls (s : explorer) (f : format) (content : string) :
  exists extra, calls (render_and_show s f content) = (calls s ++ extra)%list
                /\ Forall (call_for (data s)) extra.
Proof.
  unfold JSONLDExplorer.render_and_show, renderContent.
  destruct (format_eqb f Nquads && _ && _).
  - unfold handleAsyncNQuads.
    pose proof (toNQuads_calls (data s)) as H.
    cbn [data with_elements].
    destruct (toNQuads (data s)) as [w c]. cbn. now exists c.
  - cbn. exists []. split; [now rewrite app_nil_r | constructor].
Qed.

Lemma showView_calls (s : explorer) (f : format) :
  exists extra, calls (showView s f) = (calls s ++ extra)%list
                /\ Forall (call_for (data s)) extra.
Proof.
  assert (N : exists extra : list call,
             calls s = (calls s ++ extra)%list /\ Forall (call_for (data s)) extra)
    by (exists []; split; [now rewrite app_nil_r | constructor]).
  unfold JSONLDExplorer.showView.
  destruct (truthy (data s)); cbn [negb]; [|exact N].
  destruct (format_eqb f Table); [exact N|].
  match goal with |- context [falsy_text ?c] => destruct (falsy_text c) end.
  - match goal with |- context [JSONLDExplorer.generateContent ?a ?b ?c ?d ?e ?g] =>
      pose proof (generateContent_calls e g) as H;
      destruct (JSONLDExplorer.generateContent a b c d e g) as [[w c']|] end;
      [|exact N].
    cbn. exists c'. split; [reflexivity|]. now apply (H w).
  - match goal with |- context [match ?c with Some _ => _ | None => _ end] =>
      destruct c as [content|] end; [|exact N].
    match goal with |- context [JSONLDExplorer.render_and_show _ ?s2 _ _] =>
      apply (render_and_show_calls s2 f content) end.
Qed.

Lemma loadData_resume_calls (s : explorer) (d : value) :
  calls (loadData_resume decodeHtmlEntities JSON_stringify renderValue rdflib
           jsonld_loaded s d) = calls s.
Proof.
  unfold loadData_resume.
  destruct (normalize d) as [doc|] eqn:En; [|reflexivity].
  apply normalize_truthy in En.
  unfold renderTable. destruct (Object_entries d); [|reflexivity].
  unfold JSONLDExplorer.showView. cbn. rewrite En. reflexivity.
Qed.

Lemma converter_calls_step (s : explorer) (e : event) :
  exists extra,
    calls (step s e) = (calls s ++ extra)%list
    /\ Forall (call_for (data s)) extra.
Proof.
  assert (N : exists extra : list call,
             calls s = (calls s ++ extra)%list /\ Forall (call_for (data s)) extra)
    by (exists []; split; [now rewrite app_nil_r | constructor]).
  destruct e as [f| |i r]; cbn [JSONLDExplorer.step].
  - apply showView_calls.
  - exact N.
  - destruct (nth_error (suspended s) i) as [t|]; [|exact N].
    destruct t as [f w|w|].
    + destruct (settled w r) as [content|]; [|exact N].
      unfold showView_resume.
      match goal with |- context [JSONLDExplorer.render_and_show _ ?s1 _ _] =>
        apply (render_and_show_calls s1 f content) end.
    + destruct (settled w r) as [nquads|]; [|exact N].
      unfold handleAsyncNQuads_resume. destruct (format_eqb _ _); exact N.
    + destruct r; try exact N.
      rewrite loadData_resume_calls. exact N.
Qed.

Lemma step_keeps_document (s : explorer) (e : event) :
  brings_no_tree e = true -> data (step s e) = data s.
Proof.
  intros He. destruct e as [f| |i r]; cbn [JSONLDExplorer.step].
  - apply (showView_frame decodeHtmlEntities JSON_stringify rdflib jsonld_loaded s f).
  - reflexivity.
  - destruct (nth_error (suspended s) i) as [t|]; [|reflexivity].
    destruct t as [f w|w|].
    + destruct (settled w r) as [content|]; [|reflexivity].
      unfold showView_resume.
      match goal with |- context [JSONLDExplorer.render_and_show _ ?s1 _ _] =>
        destruct (render_and_show_frame jsonld_loaded s1 f content) as (Hd & _) end.
      now rewrite Hd.
    + destruct (settled w r) as [nquads|]; [|reflexivity].
      unfold handleAsyncNQuads_resume. now destruct (format_eqb _ _).
    + destruct r; try reflexivity; discriminate He.
Qed.

(** X8: over any run of events in which no fetched tree arrives, the log
    of converter calls only grows, and every call added is made with the
    library loaded and on the document the explorer holds: jsonld on
    the document itself, RDFLib on its Turtle text with one of the two
    MIME types. *)
Theorem converter_calls_on_live_document (es : list event) (s : explorer) :
  forallb brings_no_tree es = true ->
  data (run s es) = data s
  /\ exists extra,
       calls (run s es) = (calls s ++ extra)%list
       /\ Forall (call_for (data s)) extra.
Proof.
  revert s. induction es as [|e es IH]; intros s Hes.
  - split; [reflexivity|]. exists []. split; [now rewrite app_nil_r | constructor].
  - cbn [forallb] in Hes. apply andb_true_iff in Hes. destruct Hes as [He Hes].
    destruct (IH (step s e) Hes) as (Hd & later & Hl & Hf).
    destruct (converter_calls_step s e) as (first & Hc & Hg).
    pose proof (step_keeps_document s e He) as Hk.
    change (run s (e :: es)) with (run (step s e) es).
    rewrite Hd, Hl, Hc, Hk. split; [reflexivity|].
    exists (first ++ later)%list. split; [now rewrite app_assoc|].
    apply Forall_app. split; [assumption | now rewrite <- Hk].
Qed.

(** X9: in every state the explorer can reach, the log holds no call of
    RDFLib unless RDFLib is loaded and no call of jsonld unless jsonld
    is loaded. *)
Theorem unloaded_library_never_called (s : explorer) :
  reachable s ->
  Forall (fun c => match c with
                   | CallRdflib _ _ => is_some rdflib = true
                   | CallJsonld _ => jsonld_loaded = true
                   end) (calls s).
Proof.
  intros [es <-].
  assert (H : forall s0,
             Forall (fun c => match c with
                              | CallRdflib _ _ => is_some rdflib = true
                              | CallJsonld _ => jsonld_loaded = true
                              end) (calls s0) ->
             Forall (fun c => match c with
                              | CallRdflib _ _ => is_some rdflib = true
                              | CallJsonld _ => jsonld_loaded = true
                              end) (calls (run s0 es))).
  { induction es as [|e es IH]; intros s0 H0; [exact H0|].
    apply (IH (step s0 e)).
    destruct (converter_calls_step s0 e) as (extra & -> & He).
    apply Forall_app. split; [assumption|].
    eapply Forall_impl; [|exact He].
    intros [mime turtle|d]; cbn; tauto. }
  apply H. constructor.
Qed.

End ConverterCalls.

Lemma nth_error_app_two {A : Type} (l : list A) (a b : A) :
  nth_error ((l ++ [a]) ++ [b]) (S (List.length l)) = Some b
  /\ remove_nth (S (List.length l)) ((l ++ [a]) ++ [b]) = (l ++ [a])%list.
Proof.
  replace (S (List.length l)) with (List.length (l ++ [a]))
    by (rewrite length_app; cbn; lia).
  split; [apply nth_error_app_last | apply remove_nth_app_last].
Qed.

Section Downloads.

Variable decodeHtmlEntities : string -> string.
Variable JSON_stringify : value -> string.
Variable renderValue : value -> string.
Variable rdflib : option (string -> option string -> string + string).
Variable jsonld_loaded : bool.

Local Abbreviation reachable :=
  (reachable decodeHtmlEntities JSON_stringify renderValue rdflib jsonld_loaded).

(** X10: in a state the explorer can reach, [download] offers a file only
    for a selected format other than the table; the file is named
    [export.] followed by [ttl], [rdf], [nt] or [nq] for Turtle, RDF/XML,
    N-Triples and N-Quads, and its content is the cached text of the
    selected format, which is not empty. *)
Theorem download_offers_cached_text (s : explorer) (name text : string) :
  reachable s ->
  download s = Some (name, text) ->
  cache s (currentFormat s) = Some text
  /\ text <> EmptyString
  /\ ((currentFormat s = Turtle /\ name = "export.ttl")
      \/ (currentFormat s = Rdfxml /\ name = "export.rdf")
      \/ (currentFormat s = Ntriples /\ name = "export.nt")
      \/ (currentFormat s = Nquads /\ name = "export.nq")).
Proof.
  intros Hr. apply reachable_coherent in Hr. destruct Hr as (Ht & _ & _).
  unfold download.
  destruct (cache s (currentFormat s)) as [t|] eqn:Ec; [|discriminate].
  destruct (String.eqb_spec t EmptyString) as [->|Hne]; [discriminate|].
  cbn [orb]. destruct (prefix "Error" t || includes t "not loaded"); [discriminate|].
  intros [= <- <-]. repeat split; [assumption|].
  destruct (currentFormat s); cbn; try tauto.
  rewrite Ht in Ec. discriminate.
Qed.

(** X11: [download] offers nothing for a text that reports a failed
    conversion: the text of [toRDF] when RDFLib is missing or throws, the
    text of [toNQuads] when jsonld is missing, and the text a rejected
    jsonld conversion is turned into. *)
Theorem download_refuses_converter_failures (s : explorer) :
  (forall f turtle,
     (forall convert, rdflib = Some convert ->
                      exists e, convert turtle (mimeTypes f) = inr e) ->
     cache s (currentFormat s) = Some (fst (toRDF rdflib f turtle)) ->
     download s = None)
  /\ (forall d text,
        jsonld_loaded = false ->
        fst (toNQuads jsonld_loaded d) = Fulfilled text ->
        cache s (currentFormat s) = Some text ->
        download s = None)
  /\ (forall e text,
        settled OnJsonld (JsonldRejected e) = Some text ->
        cache s (currentFormat s) = Some text ->
        download s = None).
Proof.
  repeat split.
  - intros f turtle Hfail Hc. unfold download. rewrite Hc. unfold toRDF.
    destruct rdflib as [convert|]; [|reflexivity].
    destruct (Hfail convert eq_refl) as [e ->]. reflexivity.
  - intros d text -> [= <-] Hc. unfold download. now rewrite Hc.
  - intros e text [= <-] Hc. unfold download. now rewrite Hc.
Qed.

End Downloads.

Section Reload.

Variable decodeHtmlEntities : string -> string.
Variable JSON_stringify : value -> string.
Variable renderValue : value -> string.
Variable rdflib : option (string -> option string -> string + string).

Local Abbreviation showView :=
  (showView decodeHtmlEntities JSON_stringify rdflib true).
Local Abbreviation step :=
  (step decodeHtmlEntities JSON_stringify renderValue rdflib true).
Local Abbreviation run :=
  (run decodeHtmlEntities JSON_stringify renderValue rdflib true).

Lemma load_arrival (s : explorer) (i : nat) (d : value) :
  nth_error (suspended s) i = Some InLoadData ->
  d <> VNull ->
  d <> VUndefined ->
  normalize d = Some (data (step s (Settle i (Fetched d))))
  /\ suspended (step s (Settle i (Fetched d))) = remove_nth i (suspended s)
  /\ calls (step s (Settle i (Fetched d))) = calls s
  /\ currentFormat (step s (Settle i (Fetched d))) = Table
  /\ view_display (elements (step s (Settle i (Fetched d)))) Table = Some DisplayBlock.
Proof.
  intros Hn Hnull Hundef.
  cbn [JSONLDExplorer.step]. rewrite Hn.
  unfold JSONLDExplorer.loadData_resume.
  destruct (normalize d) as [doc|] eqn:En.
  2:{ apply normalize_fails_iff in En. tauto. }
  pose proof (normalize_truthy _ _ En) as Ht.
  unfold renderTable.
  destruct (Object_entries d) as [es|] eqn:Ee; [|destruct d; try discriminate Ee; tauto].
  unfold JSONLDExplorer.showView. cbn [data with_cache with_data with_elements].
  rewrite Ht. cbn. repeat split.
Qed.

(** X12: a request for N-Quads, then a load whose tree arrives, then the
    resolution of the converter: the document is the new tree,
    normalized, and the table format is selected, while the resolved
    text, which the converter computed on the document of before, is in
    the cache entry of N-Quads and in the N-Quads view, displayed beside
    the table view. *)
Theorem derivation_outlives_reload (s : explorer) (d : value) (t : string) :
  truthy (data s) = true ->
  falsy_text (cache s Nquads) = true ->
  d <> VNull ->
  d <> VUndefined ->
  includes t "Loading" = false ->
  let i := List.length (suspended s) in
  let s' := run s [CallShowView Nquads; CallLoadData;
                   Settle (S i) (Fetched d); Settle i (JsonldResolved t)] in
  normalize d = Some (data s')
  /\ currentFormat s' = Table
  /\ calls s' = (calls s ++ [CallJsonld (data s)])%list
  /\ cache s' Nquads = Some t
  /\ view_text (elements s') Nquads = Some t
  /\ view_display (elements s') Nquads = Some DisplayBlock
  /\ view_display (elements s') Table = Some DisplayBlock
  /\ suspended s' = suspended s.
Proof.
  intros Et Hc Hnull Hundef Hl i s'.
  destruct (showView_nquads_uncached decodeHtmlEntities JSON_stringify rdflib s Et Hc)
    as (K1 & K2 & _ & _).
  set (s1 := showView s Nquads) in *.
  set (s2 := step s1 CallLoadData).
  assert (S2 : suspended s2 = ((suspended s ++ [InShowView Nquads OnJsonld])
                                 ++ [InLoadData])%list)
    by (unfold s2; cbn; now rewrite K2).
  assert (C2 : calls s2 = (calls s ++ [CallJsonld (data s)])%list)
    by (unfold s2; cbn; exact K1).
  destruct (nth_error_app_two (suspended s) (InShowView Nquads OnJsonld) InLoadData)
    as [N1 N2].
  fold i in N1, N2. rewrite <- S2 in N1, N2.
  destruct (load_arrival s2 (S i) d N1 Hnull Hundef) as (L1 & L2 & L3 & L4 & L5).
  set (s3 := step s2 (Settle (S i) (Fetched d))) in *.
  rewrite N2 in L2.
  assert (R : s' = step s3 (Settle i (JsonldResolved t))) by reflexivity.
  rewrite R. clear R. clearbody s3. cbn [JSONLDExplorer.step].
  rewrite L2. unfold i. rewrite nth_error_app_last. cbn [settled].
  rewrite remove_nth_app_last.
  unfold showView_resume, render_and_show, renderContent.
  cbn [format_eqb andb cache with_cache with_suspended assign].
  rewrite String.eqb_refl, Hl. cbn.
  rewrite L3, L4, L5, C2. repeat split. exact L1.
Qed.

End Reload.

(** ** The table renderer *)

Lemma existsb_eqb_In (k : string) (l : list string) :
  existsb (String.eqb k) l = true <-> In k l.
Proof.
  rewrite existsb_exists. split.
  - intros (x & Hin & Hx). apply String.eqb_eq in Hx. now subst.
  - intros Hin. exists k. split; [assumption | apply String.eqb_refl].
Qed.

Lemma unique_spec (l seen : list string) :
  NoDup (unique seen l)
  /\ forall k, In k (unique seen l) <-> In k l /\ ~ In k seen.
Proof.
  revert seen. induction l as [|a l IH]; intros seen; cbn [unique].
  - split; [constructor | cbn; tauto].
  - destruct (existsb (String.eqb a) seen) eqn:E.
    + apply existsb_eqb_In in E. destruct (IH seen) as [Hn Hi].
      split; [assumption|]. intros k. rewrite Hi. cbn [In].
      split; [tauto|]. intros [[<-|H] Hs]; [contradiction | tauto].
    + assert (Ha : ~ In a seen)
        by (intros Hin; apply existsb_eqb_In in Hin; congruence).
      destruct (IH (a :: seen)) as [Hn Hi]. split.
      * constructor; [|assumption]. rewrite Hi. cbn [In]. tauto.
      * intros k. cbn [In]. rewrite Hi. cbn [In].
        destruct (String.eqb_spec a k) as [->|Hne]; tauto.
Qed.

Lemma unique_fresh_prefix (a l seen : list string) :
  NoDup a ->
  (forall k, In k a -> ~ In k seen) ->
  unique seen (a ++ l) = (a ++ unique (rev a ++ seen) l)%list.
Proof.
  revert seen. induction a as [|x a IH]; intros seen Hn Hs; [reflexivity|].
  inversion Hn as [|? ? Hx Ha]; subst.
  cbn [app unique].
  assert (existsb (String.eqb x) seen = false) as ->.
  { destruct (existsb (String.eqb x) seen) eqn:E; [|reflexivity].
    apply existsb_eqb_In in E. exfalso. apply (Hs x); [now left | assumption]. }
  rewrite IH; [|assumption|].
  - cbn [rev]. now rewrite <- app_assoc.
  - intros k Hk [<-|Hin]; [contradiction|]. apply (Hs k); [now right | assumption].
Qed.

(** X13: the header of the table of an array lists no key twice and
    lists exactly the keys of the elements; when the first element is a
    mapping, its keys come first, in its own order. *)
Theorem header_keys_union (items : list value) :
  NoDup (header_keys items)
  /\ (forall k, In k (header_keys items)
                <-> exists obj, In obj items /\ In k (Object_keys obj))
  /\ (forall es rest, items = VObj es :: rest -> wf_object es ->
        exists later, header_keys items = (keys es ++ later)%list).
Proof.
  unfold header_keys.
  destruct (unique_spec (flat_map Object_keys items) []) as [Hn Hi].
  repeat split; try assumption.
  - intros Hk. apply Hi in Hk. destruct Hk as [Hk _].
    apply in_flat_map in Hk. exact Hk.
  - intros Hk. apply Hi. split; [now apply in_flat_map | easy].
  - intros es rest -> Hwf. cbn [flat_map].
    change (Object_keys (VObj es)) with (keys es).
    eexists. apply unique_fresh_prefix; [now apply distinct_NoDup | easy].
Qed.

Lemma header_keys_union_witness :
  exists later,
    header_keys [VObj alice; VObj seventh] = ("name" :: "homepage" :: later)%list.
Proof.
  destruct (proj2 (proj2 (header_keys_union [VObj alice; VObj seventh]))
              alice [VObj seventh] eq_refl eq_refl) as [later H].
  exists later. exact H.
Defined.

Section RendererProperties.

Variable decodeHtmlEntities : string -> string.
Variable JSON_stringify : value -> string.

Local Abbreviation formatValue := (formatValue decodeHtmlEntities JSON_stringify).

Lemma is_link_http (s : string) : is_link s = true -> is_http_uri s = true.
Proof.
  unfold is_link, is_http_uri. intros H.
  apply andb_true_iff in H. destruct H as [H _].
  apply orb_true_iff in H. apply orb_true_iff.
  destruct H as [H|H]; apply andb_true_iff in H; tauto.
Qed.

(** X14: a string that the table turns into a link holds no whitespace
    and starts with [http://] or [https://]; when decoding leaves it as
    it is, the Turtle writer writes it between angle brackets, at any
    indentation. *)
Theorem linked_text_is_written_as_iri (s indent : string) :
  linkify (VStr s) <> s ->
  linkify (VStr s) = anchor s
  /\ has_space s = false
  /\ is_http_uri s = true
  /\ (decodeHtmlEntities s = s ->
      formatValue (VStr s) indent = FText ("<" ++ s ++ ">")).
Proof.
  cbn [linkify]. destruct (is_link s) eqn:E; [|congruence].
  intros _. pose proof (is_link_http s E) as Hu.
  repeat split; try assumption.
  - unfold is_link in E. apply andb_true_iff in E. destruct E as [_ E].
    now apply negb_true_iff in E.
  - intros Hd. cbn [RDFConverter.formatValue]. now rewrite Hd, Hu.
Qed.

End RendererProperties.

Lemma linked_text_is_written_as_iri_witness :
  linkify (VStr "https://alice.example") <> "https://alice.example"
  /\ formatValue sample_decode sample_stringify (VStr "https://alice.example") "  "
     = FText "<https://alice.example>".
Proof.
  assert (N : linkify (VStr "https://alice.example") <> "https://alice.example")
    by (vm_compute; discriminate).
  split; [exact N|].
  exact (proj2 (proj2 (proj2 (linked_text_is_written_as_iri sample_decode
                                sample_stringify "https://alice.example" "  " N)))
               eq_refl).
Defined.

Section TableOfMappings.

Variable decodeHtmlEntities : string -> string.
Variable JSON_stringify_pretty : value -> string.

Local Abbreviation renderValue :=
  (DataRenderer.renderValue decodeHtmlEntities JSON_stringify_pretty).

Lemma cell_own_or_inherited (es : entries) (k : string) (render_length : Z -> string) :
  cell (fun v => renderValue v) render_length (VObj es) k
  = match lookup k es with
    | Some v => renderValue v
    | None => if String.eqb k "__proto__" then empty_sub_table else EmptyString
    end.
Proof.
  cbn [cell]. induction es as [|[k' v] es IH]; cbn [lookup]; [reflexivity|].
  destruct (String.eqb k k'); [reflexivity | exact IH].
Qed.

(** X15: a non-empty array of mappings is rendered as a table whose
    header is the header keys and which has one row per element, in
    order, with one cell per header key: the rendering of the element's
    own value under the key, and for an element without the key an empty
    cell, unless the key is [__proto__], under which the cell is an empty
    table. *)
Theorem table_of_mappings (o : entries) (rest : list value) :
  forallb isMapping (VObj o :: rest) = true ->
  let items := VObj o :: rest in
  let cell_text obj k :=
    match obj with
    | VObj es =>
        match lookup k es with
        | Some v => renderValue v
        | None => if String.eqb k "__proto__" then empty_sub_table else EmptyString
        end
    | _ => EmptyString
    end in
  renderValue (VArr items)
  = "<table class=" ++ dq ++ "json-sub-table" ++ dq ++ "><thead><tr>"
      ++ join EmptyString (map (fun k => "<th>" ++ k ++ "</th>") (header_keys items))
      ++ "</tr></thead><tbody>"
      ++ join EmptyString
           (map (fun obj =>
                   "<tr>" ++ join EmptyString
                               (map (fun k => "<td>" ++ cell_text obj k ++ "</td>")
                                    (header_keys items))
                          ++ "</tr>")
                items)
      ++ "</tbody></table>".
Proof.
  intros Hm items cell_text.
  assert (Ho : forallb isObject items = true).
  { unfold items. rewrite forallb_forall in *. intros x Hx.
    specialize (Hm x Hx). now destruct x. }
  unfold items in *. cbn [DataRenderer.renderValue].
  change (forallb isPrimitive (VObj o :: rest)) with false. cbv iota. rewrite Ho.
  do 9 f_equal.
  apply map_ext_in. intros obj Hin. do 3 f_equal.
  apply map_ext_in. intros k _.
  rewrite forallb_forall in Hm. specialize (Hm obj Hin).
  destruct obj; try discriminate Hm.
  unfold cell_text. now rewrite cell_own_or_inherited.
Qed.

End TableOfMappings.

Lemma table_of_mappings_witness :
  DataRenderer.renderValue sample_decode sample_stringify
    (VArr [VObj [("a", VNum 1)]; VObj [("b", VNull)]])
  = "<table class=" ++ dq ++ "json-sub-table" ++ dq ++ "><thead><tr>"
      ++ "<th>a</th><th>b</th></tr></thead><tbody>"
      ++ "<tr><td>1</td><td></td></tr><tr><td></td><td></td></tr>"
      ++ "</tbody></table>".
Proof.
  exact (table_of_mappings sample_decode sample_stringify
           [("a", VNum 1)] [VObj [("b", VNull)]] eq_refl).
Defined.

(** ** Examples of the controller facts *)

Lemma no_document_no_effect_witness :
  forallb brings_no_tree failing_schedule = true
  /\ calls (run sample_decode sample_stringify sample_renderValue None true
              constructed failing_schedule) = []
  /\ download (run sample_decode sample_stringify sample_renderValue None true
                 constructed failing_schedule) = None.
Proof.
  destruct (no_document_no_effect sample_decode sample_stringify sample_renderValue
              None true failing_schedule eq_refl) as (_ & _ & Hc & _ & Hd).
  repeat split; assumption.
Defined.

Lemma successful_load_resets_witness :
  nth_error (suspended (loadData constructed)) 0 = Some InLoadData
  /\ normalize fetched_list
     = Some (data (step sample_decode sample_stringify sample_renderValue None true
                     (loadData constructed) (Settle 0 (Fetched fetched_list))))
  /\ currentFormat (step sample_decode sample_stringify sample_renderValue None true
                      (loadData constructed) (Settle 0 (Fetched fetched_list))) = Table.
Proof.
  destruct (successful_load_resets sample_decode sample_stringify sample_renderValue
              None true (loadData constructed) 0 fetched_list eq_refl
              ltac:(discriminate) ltac:(discriminate)) as (Hn & _ & Hf & _).
  repeat split; assumption.
Defined.

Lemma request_completes_single_view_witness :
  exists text,
    toTurtle sample_decode sample_stringify person_with_friends = Some text
    /\ view_text
         (elements
            (run sample_decode sample_stringify sample_renderValue None true
               constructed turtle_shown_schedule)) Turtle = Some text.
Proof.
  destruct (request_completes_single_view sample_decode sample_stringify
              sample_renderValue None true
              (run sample_decode sample_stringify sample_renderValue None true
                 constructed loaded_schedule)
              Turtle eq_refl eq_refl ltac:(discriminate) ltac:(discriminate))
    as (text & c & _ & Ht & _ & Hv & _).
  exists text. split; [exact (Ht eq_refl) | exact Hv].
Defined.

Lemma converter_calls_on_live_document_witness :
  exists extra,
    calls (run sample_decode sample_stringify sample_renderValue None true
             (run sample_decode sample_stringify sample_renderValue None true
                constructed loaded_schedule)
             [CallShowView Nquads; CallShowView Rdfxml; Settle 1 Resumed])
    = extra
    /\ Forall (call_for (toTurtle sample_decode sample_stringify) false true
                 person_with_friends) extra.
Proof.
  destruct (converter_calls_on_live_document sample_decode sample_stringify
              sample_renderValue None true
              [CallShowView Nquads; CallShowView Rdfxml; Settle 1 Resumed]
              (run sample_decode sample_stringify sample_renderValue None true
                 constructed loaded_schedule)
              eq_refl) as (_ & extra & Hc & Hf).
  exists extra. split; [exact Hc | exact Hf].
Defined.

Lemma unloaded_library_never_called_witness :
  Forall (fun c => match c with
                   | CallRdflib _ _ => is_some (@None (string -> option string -> string + string)) = true
                   | CallJsonld _ => true = true
                   end)
    (calls (run sample_decode sample_stringify sample_renderValue None true
              constructed repeated_nquads_schedule)).
Proof.
  exact (unloaded_library_never_called sample_decode sample_stringify
           sample_renderValue None true _
           (ex_intro _ repeated_nquads_schedule eq_refl)).
Defined.

Lemma download_offers_cached_text_witness :
  exists text,
    download (run sample_decode sample_stringify sample_renderValue None true
                constructed turtle_shown_schedule) = Some ("export.ttl", text)
    /\ cache (run sample_decode sample_stringify sample_renderValue None true
                constructed turtle_shown_schedule) Turtle = Some text.
Proof.
  eexists.
  eassert (H : download (run sample_decode sample_stringify sample_renderValue None true
                           constructed turtle_shown_schedule) = Some ("export.ttl", _))
    by (vm_compute; reflexivity).
  split; [exact H|].
  exact (proj1 (download_offers_cached_text sample_decode sample_stringify
                  sample_renderValue None true _ _ _
                  (ex_intro _ turtle_shown_schedule eq_refl) H)).
Defined.

Lemma download_refuses_converter_failures_witness :
  cache (run sample_decode sample_stringify sample_renderValue None true
           constructed rdfxml_shown_schedule) Rdfxml = Some "RDFLib not loaded!"
  /\ download (run sample_decode sample_stringify sample_renderValue None true
                 constructed rdfxml_shown_schedule) = None.
Proof.
  split; [reflexivity|].
  apply (proj1 (download_refuses_converter_failures None true
                  (run sample_decode sample_stringify sample_renderValue None true
                     constructed rdfxml_shown_schedule))
               Rdfxml EmptyString).
  - intros convert H. discriminate H.
  - reflexivity.
Defined.

Lemma derivation_outlives_reload_witness :
  cache (run sample_decode sample_stringify sample_renderValue None true
           (run sample_decode sample_stringify sample_renderValue None true
              constructed loaded_schedule)
           [CallShowView Nquads; CallLoadData;
            Settle 1 (Fetched fetched_list); Settle 0 (JsonldResolved sample_nquads)])
    Nquads = Some sample_nquads.
Proof.
  destruct (derivation_outlives_reload sample_decode sample_stringify
              sample_renderValue None
              (run sample_decode sample_stringify sample_renderValue None true
                 constructed loaded_schedule)
              fetched_list sample_nquads eq_refl eq_refl
              ltac:(discriminate) ltac:(discriminate) eq_refl)
    as (_ & _ & _ & Hc & _).
  exact Hc.
Defined.

(** ** Literals and what they determine *)

Lemma escape_quotes_head (s rest : string) :
  escape_quotes s <> String (ascii_of_nat 34) rest.
Proof.
  destruct s as [|c s]; cbn [escape_quotes]; [discriminate|].
  destruct (Ascii.eqb c (ascii_of_nat 34)) eqn:E.
  - intros H. injection H as H _. discriminate H.
  - intros H. injection H as H _. subst c.
    rewrite Ascii.eqb_refl in E. discriminate.
Qed.

Lemma escape_quotes_injective (a b : string) :
  escape_quotes a = escape_quotes b -> a = b.
Proof.
  revert b. induction a as [|c a IH]; intros [|d b]; cbn [escape_quotes].
  - reflexivity.
  - destruct (Ascii.eqb d (ascii_of_nat 34)); discriminate.
  - destruct (Ascii.eqb c (ascii_of_nat 34)); discriminate.
  - destruct (Ascii.eqb c (ascii_of_nat 34)) eqn:Ec;
      destruct (Ascii.eqb d (ascii_of_nat 34)) eqn:Ed.
    + apply Ascii.eqb_eq in Ec, Ed. subst c d.
      intros H. injection H as H. now rewrite (IH _ H).
    + intros H. injection H as _ H. symmetry in H.
      apply Ascii.eqb_eq in Ec. subst c. now apply escape_quotes_head in H.
    + intros H. injection H as _ H.
      apply Ascii.eqb_eq in Ed. subst d. now apply escape_quotes_head in H.
    + intros H. injection H as -> H. now rewrite (IH _ H).
Qed.

Lemma append_last_injective (x y : string) (c : ascii) :
  x ++ String c EmptyString = y ++ String c EmptyString -> x = y.
Proof.
  revert y. induction x as [|a x IH]; intros [|d y]; cbn [append].
  - reflexivity.
  - intros H. injection H as _ H. destruct y; discriminate H.
  - intros H. injection H as _ H. destruct x; discriminate H.
  - intros H. injection H as -> H. now rewrite (IH _ H).
Qed.

Section Literals.

Variable decodeHtmlEntities : string -> string.
Variable JSON_stringify : value -> string.

Local Abbreviation formatValue := (formatValue decodeHtmlEntities JSON_stringify).
Local Abbreviation toTurtle := (toTurtle decodeHtmlEntities JSON_stringify).
Local Abbreviation property_lines := (property_lines decodeHtmlEntities JSON_stringify).

(** X16: the text [formatValue] writes for a string determines the
    decoded string: two strings written alike, at any indentations, have
    the same decoded text. *)
Theorem string_text_determines_decoded (a b i j : string) :
  formatValue (VStr a) i = formatValue (VStr b) j ->
  decodeHtmlEntities a = decodeHtmlEntities b.
Proof.
  cbn [RDFConverter.formatValue].
  destruct (is_http_uri (decodeHtmlEntities a));
    destruct (is_http_uri (decodeHtmlEntities b));
    intros H; cbn [append dq] in H; try discriminate H; injection H as H.
  - now apply append_last_injective in H.
  - apply append_last_injective in H. now apply escape_quotes_injective.
Qed.

End Literals.

Lemma string_text_determines_decoded_witness :
  formatValue sample_decode sample_stringify (VStr "Bob") EmptyString
  = formatValue sample_decode sample_stringify (VStr "Bob") "  "
  /\ sample_decode "Bob" = sample_decode "Bob".
Proof.
  split; [reflexivity|].
  exact (string_text_determines_decoded sample_decode sample_stringify
           "Bob" "Bob" EmptyString "  " eq_refl).
Defined.

(** ** What the export test lets through *)

Lemma prefix_app (n a b : string) : prefix n a = true -> prefix n (a ++ b) = true.
Proof.
  revert a. induction n as [|c n IH]; intros a.
  - intros _. destruct a; cbn [append]; [now destruct b | reflexivity].
  - destruct a as [|d a]; cbn [prefix append]; [discriminate|].
    destruct (ascii_dec c d); [apply IH | discriminate].
Qed.

Lemma includes_app_l (a b n : string) :
  includes a n = true -> includes (a ++ b) n = true.
Proof.
  induction a as [|c a IH]; cbn [includes append].
  - rewrite orb_false_r. intros H. destruct n; [now destruct b | discriminate H].
  - intros H. apply orb_true_iff in H. apply orb_true_iff.
    destruct H as [H|H]; [left; now apply (prefix_app n (String c a) b) | right; auto].
Qed.

Lemma includes_app_r (a b n : string) :
  includes b n = true -> includes (a ++ b) n = true.
Proof.
  intros H. induction a as [|c a IH]; cbn [includes append]; [exact H|].
  apply orb_true_iff. now right.
Qed.

Lemma includes_join (sep n line : string) (lines : list string) :
  In line lines -> includes line n = true -> includes (join sep lines) n = true.
Proof.
  intros Hin Hl. induction lines as [|x rest IH]; [easy|].
  destruct rest as [|y rest].
  - destruct Hin as [->|[]]. exact Hl.
  - change (join sep (x :: y :: rest)) with (x ++ sep ++ join sep (y :: rest)).
    destruct Hin as [->|Hin].
    + now apply includes_app_l.
    + do 2 apply includes_app_r. now apply IH.
Qed.

Lemma prefix_escape_quotes (n t : string) :
  includes n dq = false -> prefix n t = true -> prefix n (escape_quotes t) = true.
Proof.
  revert t. induction n as [|c n IH]; intros t Hq; [now destruct (escape_quotes t)|].
  destruct t as [|d t]; cbn [prefix]; [discriminate|].
  destruct (ascii_dec c d) as [<-|]; [|discriminate].
  intros Hp. cbn [escape_quotes].
  cbn [includes] in Hq. apply orb_false_iff in Hq. destruct Hq as [Hc Hq].
  assert (Ascii.eqb c (ascii_of_nat 34) = false) as ->.
  { destruct (Ascii.eqb c (ascii_of_nat 34)) eqn:E; [|reflexivity].
    apply Ascii.eqb_eq in E. subst c. cbn in Hc.
    destruct n; discriminate Hc. }
  cbn [prefix]. destruct (ascii_dec c c); [|congruence]. now apply IH.
Qed.

Lemma includes_escape_quotes (t n : string) :
  includes n dq = false -> includes t n = true -> includes (escape_quotes t) n = true.
Proof.
  intros Hq. induction t as [|c t IH]; cbn [includes].
  - rewrite orb_false_r. intros H. cbn [escape_quotes includes]. now rewrite H.
  - intros H. apply orb_true_iff in H. destruct H as [H|H].
    + apply (prefix_escape_quotes n (String c t) Hq) in H.
      destruct (escape_quotes (String c t)); cbn [includes]; now rewrite H.
    + cbn [escape_quotes].
      destruct (Ascii.eqb c (ascii_of_nat 34)); cbn [includes];
        rewrite (IH H); now rewrite !orb_true_r.
Qed.

Section TurtleExport.

Variable decodeHtmlEntities : string -> string.
Variable JSON_stringify : value -> string.

Local Abbreviation toTurtle := (toTurtle decodeHtmlEntities JSON_stringify).
Local Abbreviation property_lines := (property_lines decodeHtmlEntities JSON_stringify).

Lemma turtle_text_head (doc : value) (text : string) :
  toTurtle doc = Some text ->
  String.eqb text EmptyString = false /\ prefix "Error" text = false.
Proof.
  unfold RDFConverter.toTurtle.
  destruct (Object_entries doc); [|discriminate].
  intros [= <-]. split; reflexivity.
Qed.

Lemma turtle_holds_string (o : entries) (key t : string) :
  In (key, VStr t) o ->
  key <> "@context" ->
  key <> "@type" ->
  is_http_uri (decodeHtmlEntities t) = false ->
  includes (decodeHtmlEntities t) "not loaded" = true ->
  exists text, toTurtle (VObj o) = Some text /\ includes text "not loaded" = true.
Proof.
  intros Hin Hc Ht Hu Hn. rewrite toTurtle_object. eexists. split; [reflexivity|].
  do 5 apply includes_app_r. apply includes_app_l.
  apply (includes_join _ _
           ("  " ++ predicate key ++ " "
                 ++ dq ++ escape_quotes (decodeHtmlEntities t) ++ dq)).
  - unfold RDFConverter.property_lines.
    apply in_map_iff. exists (key, VStr t). split.
    + cbn [RDFConverter.formatValue text_of]. now rewrite Hu.
    + apply filter_In. split; [assumption|].
      unfold includes_key. cbn [existsb].
      apply String.eqb_neq in Hc, Ht. now rewrite Hc, Ht.
  - do 4 apply includes_app_r. apply includes_app_l.
    now apply includes_escape_quotes.
Qed.

(** X17: with Turtle selected and the Turtle text of a document in the
    cache, [download] offers the file [export.ttl] holding that text
    unless the text holds the words [not loaded], and then it offers
    nothing; so it offers nothing for a document that has, under a
    property key, a string that is no URI and holds these words. *)
Theorem turtle_download (s : explorer) (doc : value) (text : string) :
  currentFormat s = Turtle ->
  cache s Turtle = Some text ->
  toTurtle doc = Some text ->
  download s = (if includes text "not loaded" then None
                else Some ("export.ttl", text))
  /\ forall o key t,
       doc = VObj o ->
       In (key, VStr t) o ->
       key <> "@context" ->
       key <> "@type" ->
       is_http_uri (decodeHtmlEntities t) = false ->
       includes (decodeHtmlEntities t) "not loaded" = true ->
       download s = None.
Proof.
  intros Hf Hc Ht.
  destruct (turtle_text_head doc text Ht) as [He Hp].
  assert (D : download s = (if includes text "not loaded" then None
                            else Some ("export.ttl", text))).
  { unfold download. rewrite Hf, Hc, He, Hp. cbn [orb extensions].
    now destruct (includes text "not loaded"). }
  split; [exact D|].
  intros o key t -> Hin Hkc Hkt Hu Hn.
  destruct (turtle_holds_string o key t Hin Hkc Hkt Hu Hn) as (text' & Ht' & Hi).
  rewrite Ht in Ht'. injection Ht' as <-. now rewrite D, Hi.
Qed.

End TurtleExport.

Lemma turtle_download_witness :
  currentFormat (run sample_decode sample_stringify sample_renderValue None true
                   constructed status_shown_schedule) = Turtle
  /\ cache (run sample_decode sample_stringify sample_renderValue None true
              constructed status_shown_schedule) Turtle
     = toTurtle sample_decode sample_stringify status_report
  /\ download (run sample_decode sample_stringify sample_renderValue None true
                 constructed status_shown_schedule) = None.
Proof.
  split; [reflexivity|]. split; [reflexivity|].
  eassert (T : toTurtle sample_decode sample_stringify status_report = Some _)
    by reflexivity.
  refine (proj2 (turtle_download sample_decode sample_stringify
                   (run sample_decode sample_stringify sample_renderValue None true
                      constructed status_shown_schedule)
                   status_report _ eq_refl eq_refl T)
                _ "status" "module not loaded yet" eq_refl _ _ _ eq_refl eq_refl).
  - right. now left.
  - discriminate.
  - discriminate.
Defined.

(** ** The document of the explorer *)

Section Document.

Variable decodeHtmlEntities : string -> string.
Variable JSON_stringify : value -> string.
Variable renderValue : value -> string.
Variable rdflib : option (string -> option string -> string + string).
Variable jsonld_loaded : bool.

Local Abbreviation step :=
  (step decodeHtmlEntities JSON_stringify renderValue rdflib jsonld_loaded).
Local Abbreviation run :=
  (run decodeHtmlEntities JSON_stringify renderValue rdflib jsonld_loaded).
Local Abbreviation reachable :=
  (reachable decodeHtmlEntities JSON_stringify renderValue rdflib jsonld_loaded).

Lemma step_document (s : explorer) (e : event) :
  data (step s e) = data s \/ exists d, normalize d = Some (data (step s e)).
Proof.
  destruct (brings_no_tree e) eqn:Eb.
  - left. now apply step_keeps_document.
  - destruct e as [f| |i r]; try discriminate Eb.
    destruct r; try discriminate Eb.
    cbn [JSONLDExplorer.step].
    destruct (nth_error (suspended s) i) as [t|]; [|now left].
    destruct t as [f w|w|]; cbn [settled].
    + destruct w; now left.
    + destruct w; now left.
    + unfold loadData_resume.
      destruct (normalize data0) as [doc|] eqn:En; [|now left].
      right. exists data0. rewrite En. f_equal.
      apply normalize_truthy in En.
      unfold renderTable. destruct (Object_entries data0); [|reflexivity].
      unfold JSONLDExplorer.showView. cbn. rewrite En. reflexivity.
Qed.

(** X18: in every state the explorer can reach, there is no document or
    the document is a mapping on which [isJSONLD] is truthy, and then
    [toTurtle] returns a text for it: the Turtle writer does not throw
    on the document of the explorer. *)
Theorem document_is_semantic (s : explorer) :
  reachable s ->
  data s = VNull
  \/ ((exists o, data s = VObj o)
      /\ truthy (isJSONLD (data s)) = true
      /\ exists text, toTurtle decodeHtmlEntities JSON_stringify (data s) = Some text).
Proof.
  intros [es <-].
  assert (H : forall s0, semantic_or_absent (data s0) ->
                         semantic_or_absent (data (run s0 es))).
  { induction es as [|e es IH]; intros s0 H0; [exact H0|].
    apply (IH (step s0 e)).
    destruct (step_document s0 e) as [-> | [d Hd]]; [exact H0|].
    right. destruct (normalize_result _ _ Hd) as (Ho & Ht & _). now split. }
  destruct (H constructed (or_introl eq_refl)) as [Hn | [Ho Ht]]; [now left | right].
  repeat split; try assumption.
  apply toTurtle_truthy. destruct Ho as [o ->]. reflexivity.
Qed.

End Document.

Lemma document_is_semantic_witness :
  exists text,
    toTurtle sample_decode sample_stringify
      (data (run sample_decode sample_stringify sample_renderValue None true
               constructed [CallLoadData; Settle 0 (Fetched fetched_list)]))
    = Some text.
Proof.
  destruct (document_is_semantic sample_decode sample_stringify sample_renderValue
              None true _
              (ex_intro _ [CallLoadData; Settle 0 (Fetched fetched_list)] eq_refl))
    as [H | (_ & _ & H)]; [discriminate H | exact H].
Defined.
